(** * IPv4 / IPv6 header explorer: the UI state model and its derived views

    A shallow embedding of the four React page components of the
    repository:

    - [src/unnamed/part_000], first document: [IPv4OSIApp], four tabs,
      field explanations rendered as a list of cards;
    - [src/unnamed/part_000], second document: [IPv6OSIApp], four tabs,
      list of cards;
    - [src/unnamed/part_001]: [IPv4OSIApp], three tabs, a single detail
      panel for the hovered field;
    - [src/app/page.tsx]: [IPv6OSIApp], four tabs, list of cards.

    Each component owns three [useState] cells and renders JSX from them and
    from two constant tables.  The cells become a record [State], the
    setters become functions on it, and the JSX becomes a function from the
    state to a tree of [Node]s.  A run of sibling markup that reads
    neither the state nor the two tables (fixed text and elements, the bit
    ruler of part_001, the cells of the header diagram) is kept as one
    [Static] leaf named after its content; the handlers of the diagram
    cells are listed by [diagramHandlers]. *)

From Stdlib Require Import Ascii String List ZArith Bool Lia Permutation.
Import ListNotations.

Local Open Scope string_scope.
Local Open Scope Z_scope.

(** ** JavaScript operators used by the components *)

Module JS.

(** [a === b] where [a : string | null] and [b : string]. *)
Definition strictEqStr (a : option string) (b : string) : bool :=
  match a with
  | Some x => String.eqb x b
  | None => false
  end.

(** [a === b] where [a : number | null] and [b : number]. *)
Definition strictEqNum (a : option Z) (b : Z) : bool :=
  match a with
  | Some x => Z.eqb x b
  | None => false
  end.

(** Truthiness of a [string | null] value: [null] and the empty string
    are falsy. *)
Definition truthyStr (a : option string) : bool :=
  match a with
  | Some x => negb (String.eqb x "")
  | None => false
  end.

(** Truthiness of an optional boolean property ([undefined] is falsy). *)
Definition truthyFlag (a : option bool) : bool :=
  match a with
  | Some b => b
  | None => false
  end.

(** [Array.prototype.find]: the first element satisfying the predicate,
    or [undefined]. *)
Definition find {A : Type} (p : A -> bool) (l : list A) : option A :=
  List.find p l.

(** [Array.prototype.slice()] with no argument: a shallow copy. *)
Definition slice {A : Type} (l : list A) : list A := l.

(** [Array.prototype.reverse]. *)
Definition reverse {A : Type} (l : list A) : list A := rev l.

End JS.

(** ** Data model *)

(** [interface IPv4Field] and [interface IPv6Field] have the same shape. *)
Module IPField.
Record t : Type := mk
  { name : string
  ; bits : string
  ; description : string
  ; purpose : string
  ; example : option string }.
End IPField.

Definition IPv4Field : Type := IPField.t.
Definition IPv6Field : Type := IPField.t.

(** [interface OSILayer].  The optional flag is called [isIPv4Layer] in the
    IPv4 components and [isIPv6Layer] in the IPv6 ones; [isIPLayer] stands
    for both. *)
Module OSILayer.
Record t : Type := mk
  { number : Z
  ; name : string
  ; description : string
  ; protocols : list string
  ; isIPLayer : option bool }.
End OSILayer.

Definition isIPv4Layer : OSILayer.t -> option bool := OSILayer.isIPLayer.
Definition isIPv6Layer : OSILayer.t -> option bool := OSILayer.isIPLayer.

(** ** The constant tables *)

(** Datasets of the first document of [src/unnamed/part_000]: the IPv4 explorer with a story tab. *)
Module Part000_IPv4.

Definition ipv4Fields : list IPField.t :=
  [ IPField.mk
      "Version"
      "4 bits"
      "IP version number"
      "Identifies the IP version being used. For IPv4, this value is always 4."
      (Some "0100 (binary) = 4 (decimal)")
  ; IPField.mk
      "IHL"
      "4 bits"
      "Internet Header Length"
      "Specifies the length of the IP header in 32-bit words (4-byte units). Minimum value is 5 (20 bytes) for a header with no options. Maximum is 15 (60 bytes)."
      (Some "5 = 20 bytes (no options), 8 = 32 bytes (12 bytes of options)")
  ; IPField.mk
      "Type of Service"
      "8 bits"
      "Type of Service (DSCP + ECN)"
      "Defines how the packet should be handled in terms of priority, delay, throughput, and reliability. First 6 bits are DSCP, last 2 bits are ECN."
      (Some "00000000 = Normal service, 10111000 = Expedited Forwarding")
  ; IPField.mk
      "Total Length"
      "16 bits"
      "Total packet length"
      "Specifies the total length of the IP packet (header + data) in bytes. Maximum is 65,535 bytes."
      (Some "1500 bytes for standard Ethernet frame")
  ; IPField.mk
      "Identification"
      "16 bits"
      "Unique packet identifier"
      "Uniquely identifies fragments of an original IP packet. All fragments have the same ID."
      (Some "12345 (decimal)")
  ; IPField.mk
      "Flags"
      "3 bits"
      "Control fragmentation"
      "Controls packet fragmentation: Reserved bit (must be 0), Don't Fragment (DF), More Fragments (MF)."
      (Some "010 = Don't Fragment set")
  ; IPField.mk
      "Fragment Offset"
      "13 bits"
      "Fragment position"
      "Indicates where this fragment belongs in the original packet, measured in 8-byte units."
      (Some "0 for first fragment")
  ; IPField.mk
      "Time to Live"
      "8 bits"
      "Maximum hops allowed"
      "Prevents infinite routing loops by limiting packet lifetime. Decremented at each hop."
      (Some "64 hops (common default)")
  ; IPField.mk
      "Protocol"
      "8 bits"
      "Next layer protocol"
      "Identifies the protocol used in the data portion (TCP=6, UDP=17, ICMP=1)."
      (Some "6 = TCP, 17 = UDP")
  ; IPField.mk
      "Header Checksum"
      "16 bits"
      "Error detection"
      "Provides error detection for the header only. Recalculated at each hop due to TTL changes."
      (Some "Calculated using one's complement")
  ; IPField.mk
      "Source IP Address"
      "32 bits"
      "Sender's IP address"
      "The IP address of the device sending the packet."
      (Some "192.168.1.100")
  ; IPField.mk
      "Destination IP Address"
      "32 bits"
      "Receiver's IP address"
      "The IP address of the device that should receive the packet."
      (Some "8.8.8.8")
  ; IPField.mk
      "Options"
      "0-40 bytes"
      "Optional header fields with padding"
      "Variable-length field for additional IP options like source routing, timestamps, or security. Must be padded to ensure the header length is a multiple of 32 bits."
      (Some "Usually empty in most packets. When present, often includes padding to align to 32-bit boundary.") ].

Definition osiLayers : list OSILayer.t :=
  [ OSILayer.mk 7 "Application Layer"
      "Network services to applications"
      ["HTTP"; "HTTPS"; "FTP"; "SMTP"; "DNS"] None
  ; OSILayer.mk 6 "Presentation Layer"
      "Data translation, encryption, compression"
      ["SSL/TLS"; "JPEG"; "GIF"; "ASCII"] None
  ; OSILayer.mk 5 "Session Layer"
      "Establishes, manages, terminates connections"
      ["NetBIOS"; "RPC"; "SQL"] None
  ; OSILayer.mk 4 "Transport Layer"
      "Reliable data transfer, error recovery"
      ["TCP"; "UDP"; "SCTP"] None
  ; OSILayer.mk 3 "Network Layer"
      "Routing, logical addressing"
      ["IPv4"; "IPv6"; "ICMP"; "OSPF"] (Some true)
  ; OSILayer.mk 2 "Data Link Layer"
      "Node-to-node delivery, error detection"
      ["Ethernet"; "Wi-Fi"; "PPP"] None
  ; OSILayer.mk 1 "Physical Layer"
      "Physical transmission of raw bits"
      ["Cable"; "Fiber"; "Radio waves"] None ].

End Part000_IPv4.

(** Datasets of the second document of [src/unnamed/part_000]: an IPv6 explorer. *)
Module Part000_IPv6.

Definition ipv6Fields : list IPField.t :=
  [ IPField.mk
      "Version"
      "4 bits"
      "IP version number"
      "Identifies the IP version being used. For IPv6, this value is always 6."
      (Some "0110 (binary) = 6 (decimal)")
  ; IPField.mk
      "Traffic Class"
      "8 bits"
      "Quality of Service (QoS) marking"
      "Similar to the Type of Service field in IPv4. Used for packet prioritization and congestion control. First 6 bits are DSCP, last 2 bits are ECN."
      (Some "00000000 = Normal service, 10111000 = Expedited Forwarding")
  ; IPField.mk
      "Flow Label"
      "20 bits"
      "Packet flow identification"
      "Identifies packets belonging to the same flow, allowing routers to process related packets together. Helps with quality of service and real-time data."
      (Some "0x12345 (a unique flow identifier)")
  ; IPField.mk
      "Payload Length"
      "16 bits"
      "Size of payload"
      "Specifies the length of the payload (data after the IPv6 header) in bytes. Does not include the header size."
      (Some "1440 bytes (typical payload size)")
  ; IPField.mk
      "Next Header"
      "8 bits"
      "Next header type"
      "Identifies the type of header immediately following the IPv6 header (e.g., TCP, UDP, or an Extension Header)."
      (Some "6 = TCP, 17 = UDP, 58 = ICMPv6")
  ; IPField.mk
      "Hop Limit"
      "8 bits"
      "Maximum hops allowed"
      "Similar to TTL in IPv4. Prevents infinite routing loops by limiting packet lifetime. Decremented at each hop."
      (Some "64 hops (common default)")
  ; IPField.mk
      "Source Address"
      "128 bits"
      "Sender's IPv6 address"
      "The IPv6 address of the device sending the packet."
      (Some "2001:0db8:85a3:0000:0000:8a2e:0370:7334")
  ; IPField.mk
      "Destination Address"
      "128 bits"
      "Receiver's IPv6 address"
      "The IPv6 address of the device that should receive the packet."
      (Some "2001:4860:4860::8888 (Google's public DNS)")
  ; IPField.mk
      "Extension Headers"
      "Variable"
      "Optional headers"
      "Provides additional functionality beyond the main header. Can include Hop-by-Hop Options, Routing, Fragment, Destination Options, Authentication, and Encapsulating Security Payload."
      (Some "Authentication Header (AH), Encapsulating Security Payload (ESP)") ].

Definition osiLayers : list OSILayer.t :=
  [ OSILayer.mk 7 "Application Layer"
      "Network services to applications"
      ["HTTP"; "HTTPS"; "FTP"; "SMTP"; "DNS"] None
  ; OSILayer.mk 6 "Presentation Layer"
      "Data translation, encryption, compression"
      ["SSL/TLS"; "JPEG"; "GIF"; "ASCII"] None
  ; OSILayer.mk 5 "Session Layer"
      "Establishes, manages, terminates connections"
      ["NetBIOS"; "RPC"; "SQL"] None
  ; OSILayer.mk 4 "Transport Layer"
      "Reliable data transfer, error recovery"
      ["TCP"; "UDP"; "SCTP"] None
  ; OSILayer.mk 3 "Network Layer"
      "Routing, logical addressing"
      ["IPv6"; "IPv4"; "ICMPv6"; "OSPF"] (Some true)
  ; OSILayer.mk 2 "Data Link Layer"
      "Node-to-node delivery, error detection"
      ["Ethernet"; "Wi-Fi"; "PPP"] None
  ; OSILayer.mk 1 "Physical Layer"
      "Physical transmission of raw bits"
      ["Cable"; "Fiber"; "Radio waves"] None ].

End Part000_IPv6.

(** Datasets of [src/unnamed/part_001]: the IPv4 explorer with a single detail panel. *)
Module Part001_IPv4.

Definition ipv4Fields : list IPField.t :=
  [ IPField.mk
      "Version"
      "4 bits"
      "IP version number"
      "Identifies the IP version being used. For IPv4, this value is always 4."
      (Some "0100 (binary) = 4 (decimal)")
  ; IPField.mk
      "IHL"
      "4 bits"
      "Internet Header Length"
      "Specifies the length of the IP header in 32-bit words. Minimum value is 5 (20 bytes)."
      (Some "0101 (binary) = 5 words = 20 bytes")
  ; IPField.mk
      "Type of Service"
      "8 bits"
      "Quality of Service parameters"
      "Defines the priority and type of service for the packet. Used for QoS routing decisions."
      (Some "00000000 = Normal service")
  ; IPField.mk
      "Total Length"
      "16 bits"
      "Total packet length"
      "Specifies the total length of the IP packet (header + data) in bytes. Maximum is 65,535 bytes."
      (Some "1500 bytes for standard Ethernet frame")
  ; IPField.mk
      "Identification"
      "16 bits"
      "Unique packet identifier"
      "Uniquely identifies fragments of an original IP packet. All fragments have the same ID."
      (Some "12345 (decimal)")
  ; IPField.mk
      "Flags"
      "3 bits"
      "Control fragmentation"
      "Controls packet fragmentation: Reserved bit, Don't Fragment (DF), More Fragments (MF)."
      (Some "010 = Don't Fragment set")
  ; IPField.mk
      "Fragment Offset"
      "13 bits"
      "Fragment position"
      "Indicates where this fragment belongs in the original packet, measured in 8-byte units."
      (Some "0 for first fragment")
  ; IPField.mk
      "Time to Live"
      "8 bits"
      "Maximum hops allowed"
      "Prevents infinite routing loops by limiting packet lifetime. Decremented at each hop."
      (Some "64 hops (common default)")
  ; IPField.mk
      "Protocol"
      "8 bits"
      "Next layer protocol"
      "Identifies the protocol used in the data portion (TCP=6, UDP=17, ICMP=1)."
      (Some "6 = TCP, 17 = UDP")
  ; IPField.mk
      "Header Checksum"
      "16 bits"
      "Error detection"
      "Provides error detection for the header only. Recalculated at each hop due to TTL changes."
      (Some "Calculated using one's complement")
  ; IPField.mk
      "Source IP Address"
      "32 bits"
      "Sender's IP address"
      "The IP address of the device sending the packet."
      (Some "192.168.1.100")
  ; IPField.mk
      "Destination IP Address"
      "32 bits"
      "Receiver's IP address"
      "The IP address of the device that should receive the packet."
      (Some "8.8.8.8")
  ; IPField.mk
      "Options"
      "0-40 bytes"
      "Optional header fields"
      "Variable-length field for additional IP options like source routing or timestamps."
      (Some "Usually empty in most packets") ].

Definition osiLayers : list OSILayer.t :=
  [ OSILayer.mk 7 "Application Layer"
      "Network services to applications"
      ["HTTP"; "HTTPS"; "FTP"; "SMTP"; "DNS"] None
  ; OSILayer.mk 6 "Presentation Layer"
      "Data translation, encryption, compression"
      ["SSL/TLS"; "JPEG"; "GIF"; "ASCII"] None
  ; OSILayer.mk 5 "Session Layer"
      "Establishes, manages, terminates connections"
      ["NetBIOS"; "RPC"; "SQL"] None
  ; OSILayer.mk 4 "Transport Layer"
      "Reliable data transfer, error recovery"
      ["TCP"; "UDP"; "SCTP"] None
  ; OSILayer.mk 3 "Network Layer"
      "Routing, logical addressing"
      ["IPv4"; "IPv6"; "ICMP"; "OSPF"] (Some true)
  ; OSILayer.mk 2 "Data Link Layer"
      "Node-to-node delivery, error detection"
      ["Ethernet"; "Wi-Fi"; "PPP"] None
  ; OSILayer.mk 1 "Physical Layer"
      "Physical transmission of raw bits"
      ["Cable"; "Fiber"; "Radio waves"] None ].

End Part001_IPv4.

(** Datasets of [src/app/page.tsx]: the IPv6 explorer. *)
Module Page_IPv6.

Definition ipv6Fields : list IPField.t :=
  [ IPField.mk
      "Version"
      "4 bits"
      "IP version number"
      "Identifies the IP version being used. For IPv6, this value is always 6."
      (Some "0110 (binary) = 6 (decimal)")
  ; IPField.mk
      "Traffic Class"
      "8 bits"
      "Quality of Service (QoS) marking"
      "Similar to the Type of Service field in IPv4. Used for packet prioritization and congestion control. First 6 bits are DSCP, last 2 bits are ECN."
      (Some "00000000 = Normal service, 10111000 = Expedited Forwarding")
  ; IPField.mk
      "Flow Label"
      "20 bits"
      "Packet flow identification"
      "Identifies packets that belong to the same flow, allowing routers to process related packets together. Helps with quality of service and real-time data."
      (Some "0x12345 (20-bit value)")
  ; IPField.mk
      "Payload Length"
      "16 bits"
      "Length of payload"
      "Specifies the length of the payload (data after the IPv6 header) in bytes. Does not include the header itself."
      (Some "1440 bytes for a typical payload")
  ; IPField.mk
      "Next Header"
      "8 bits"
      "Next header type"
      "Identifies the type of header immediately following the IPv6 header (TCP=6, UDP=17, ICMPv6=58)."
      (Some "6 = TCP, 17 = UDP, 58 = ICMPv6")
  ; IPField.mk
      "Hop Limit"
      "8 bits"
      "Maximum hops allowed"
      "Prevents infinite routing loops by limiting packet lifetime. Decremented at each hop, similar to TTL in IPv4."
      (Some "64 hops (common default)")
  ; IPField.mk
      "Source Address"
      "128 bits"
      "Sender's IPv6 address"
      "The IPv6 address of the device sending the packet. Four times larger than IPv4 addresses."
      (Some "2001:0db8:85a3:0000:0000:8a2e:0370:7334")
  ; IPField.mk
      "Destination Address"
      "128 bits"
      "Receiver's IPv6 address"
      "The IPv6 address of the device that should receive the packet. Four times larger than IPv4 addresses."
      (Some "2001:4860:4860::8888 (Google's public DNS)")
  ; IPField.mk
      "Extension Headers"
      "Variable"
      "Optional headers for special handling"
      "IPv6 uses extension headers instead of the options field in IPv4. These are placed between the IPv6 header and the upper-layer header. Common types include Hop-by-Hop Options, Routing, Fragment, Destination Options, Authentication, and Encapsulating Security Payload."
      (Some "Hop-by-Hop Options header (Next Header value = 0), Routing header (Next Header value = 43)") ].

Definition osiLayers : list OSILayer.t :=
  [ OSILayer.mk 7 "Application Layer"
      "Network services to applications"
      ["HTTP"; "HTTPS"; "FTP"; "SMTP"; "DNS"] None
  ; OSILayer.mk 6 "Presentation Layer"
      "Data translation, encryption, compression"
      ["SSL/TLS"; "JPEG"; "GIF"; "ASCII"] None
  ; OSILayer.mk 5 "Session Layer"
      "Establishes, manages, terminates connections"
      ["NetBIOS"; "RPC"; "SQL"] None
  ; OSILayer.mk 4 "Transport Layer"
      "Reliable data transfer, error recovery"
      ["TCP"; "UDP"; "SCTP"] None
  ; OSILayer.mk 3 "Network Layer"
      "Routing, logical addressing"
      ["IPv6"; "IPv4"; "ICMPv6"; "OSPF"] (Some true)
  ; OSILayer.mk 2 "Data Link Layer"
      "Node-to-node delivery, error detection"
      ["Ethernet"; "Wi-Fi"; "PPP"] None
  ; OSILayer.mk 1 "Physical Layer"
      "Physical transmission of raw bits"
      ["Cable"; "Fiber"; "Radio waves"] None ].

End Page_IPv6.

(** ** Component state *)

(** The three [useState] cells of a component. *)
Record State : Type := mkState
  { isDarkMode : bool
  ; hoveredField : option string
  ; hoveredLayer : option Z }.

Definition setIsDarkMode (v : bool) (s : State) : State :=
  {| isDarkMode := v
   ; hoveredField := hoveredField s
   ; hoveredLayer := hoveredLayer s |}.

Definition setHoveredField (v : option string) (s : State) : State :=
  {| isDarkMode := isDarkMode s
   ; hoveredField := v
   ; hoveredLayer := hoveredLayer s |}.

Definition setHoveredLayer (v : option Z) (s : State) : State :=
  {| isDarkMode := isDarkMode s
   ; hoveredField := hoveredField s
   ; hoveredLayer := v |}.

(** [const toggleTheme = () => { setIsDarkMode(!isDarkMode) }] *)
Definition toggleTheme (s : State) : State :=
  setIsDarkMode (negb (isDarkMode s)) s.

(** The closures installed as event handlers in the JSX. *)
Inductive Handler : Type :=
| CallToggleTheme
| CallSetHoveredField (v : option string)
| CallSetHoveredLayer (v : option Z).

Definition run (h : Handler) (s : State) : State :=
  match h with
  | CallToggleTheme => toggleTheme s
  | CallSetHoveredField v => setHoveredField v s
  | CallSetHoveredLayer v => setHoveredLayer v s
  end.

(** ** Rendered tree *)

Inductive Key : Type :=
| NoKey
| StrKey (k : string)
| NumKey (k : Z).

(** The props the components pass; an absent [className] is the empty
    string. *)
Record Props : Type := mkProps
  { key : Key
  ; className : string
  ; variant : option string
  ; onMouseEnter : option Handler
  ; onMouseLeave : option Handler
  ; onClick : option Handler }.

Definition cls (c : string) : Props := mkProps NoKey c None None None None.
Definition keyed (k : Key) (c : string) : Props := mkProps k c None None None None.
Definition noProps : Props := cls "".

#[warnings="-register-all"]
Inductive Node : Type :=
| Null
| Text (s : string)
| Num (n : Z)
| Static (what : string)
| Elem (tag : string) (p : Props) (children : list Node).

Definition propsOf (n : Node) : Props :=
  match n with
  | Elem _ p _ => p
  | _ => noProps
  end.

Definition classOf (n : Node) : string := className (propsOf n).
Definition keyOf (n : Node) : Key := key (propsOf n).

(** ** The four components *)

(** What differs between the four components, apart from static text. *)
Record Config : Type := mkConfig
  { proto : string
  ; fields : list IPField.t
  ; layers : list OSILayer.t
  ; diagram : list string
  ; defaultDark : bool
  ; singlePanel : bool
  ; hasStory : bool }.

Inductive App : Type :=
| Part000_IPv4App
| Part000_IPv6App
| Part001_IPv4App
| Page_IPv6App.

(** The field names the header diagram passes to [setHoveredField] on
    [onMouseEnter], in source order. *)
Definition ipv4Diagram : list string :=
  [ "Version"; "IHL"; "Type of Service"; "Total Length"; "Identification"
  ; "Flags"; "Fragment Offset"; "Time to Live"; "Protocol"
  ; "Header Checksum"; "Source IP Address"; "Destination IP Address"
  ; "Options" ].

Definition ipv6Diagram : list string :=
  [ "Version"; "Traffic Class"; "Flow Label"; "Payload Length"
  ; "Next Header"; "Hop Limit"; "Source Address"; "Destination Address"
  ; "Extension Headers" ].

Definition config (a : App) : Config :=
  match a with
  | Part000_IPv4App =>
      mkConfig "IPv4" Part000_IPv4.ipv4Fields Part000_IPv4.osiLayers
        ipv4Diagram false false true
  | Part000_IPv6App =>
      mkConfig "IPv6" Part000_IPv6.ipv6Fields Part000_IPv6.osiLayers
        ipv6Diagram true false true
  | Part001_IPv4App =>
      mkConfig "IPv4" Part001_IPv4.ipv4Fields Part001_IPv4.osiLayers
        ipv4Diagram false true false
  | Page_IPv6App =>
      mkConfig "IPv6" Page_IPv6.ipv6Fields Page_IPv6.osiLayers
        ipv6Diagram true false true
  end.

(** [useState(false)] / [useState(true)], [useState(null)], [useState(null)]. *)
Definition initialState (a : App) : State :=
  mkState (defaultDark (config a)) None None.

Definition fieldNames (c : Config) : list string :=
  map IPField.name (fields c).

Definition layerNumbers (c : Config) : list Z :=
  map OSILayer.number (layers c).

(** The values of the [TabsTrigger]s: "story", "ipv4-header" or
    "ipv6-header", "osi-model", "integration". *)
Inductive Tab : Type := Story | HeaderDetail | OsiModel | Integration.

(** ** Derived views *)

Section Views.

Variable c : Config.

(** *** Header tab: list of cards (part_000, page.tsx) *)

Definition cardHighlight : string :=
  "border-2 border-blue-500 bg-blue-50 dark:bg-blue-950 shadow-lg scale-105".

Definition cardNormal : string :=
  "border border-gray-200 dark:border-gray-700".

(** [`transition-all duration-200 ${hovered ? ... : ...}`] *)
Definition cardClass (hovered : bool) : string :=
  "transition-all duration-200 " ++ (if hovered then cardHighlight else cardNormal).

Definition outlineBadge (k : Key) (cl : string) : Props :=
  mkProps k cl (Some "outline") None None None.

(** [{field.example && (<div ...><p ...><strong>Example:</strong> {field.example}</p></div>)}] *)
Definition exampleBox (boxClass pClass : string) (ex : option string) : Node :=
  match ex with
  | None => Null
  | Some e =>
      if String.eqb e "" then Text ""
      else Elem "div" (cls boxClass)
             [ Elem "p" (cls pClass)
                 [ Elem "strong" noProps [Text "Example:"]; Text " "; Text e ] ]
  end.

Definition fieldCard (s : State) (field : IPField.t) : Node :=
  Elem "Card"
    (keyed (StrKey (IPField.name field))
       (cardClass (JS.strictEqStr (hoveredField s) (IPField.name field))))
    [ Elem "CardContent" (cls "p-4")
        [ Elem "div" (cls "space-y-2")
            [ Elem "div" (cls "flex items-center space-x-2")
                [ Elem "Badge" (outlineBadge NoKey "text-xs") [Text (IPField.bits field)]
                ; Elem "h4" (cls "font-semibold text-sm") [Text (IPField.name field)] ]
            ; Elem "p" (cls "text-xs text-muted-foreground") [Text (IPField.description field)]
            ; Elem "p" (cls "text-xs") [Text (IPField.purpose field)]
            ; exampleBox "bg-muted p-2 rounded-md" "text-xs" (IPField.example field) ] ] ].

(** [{ipv4Fields.map((field) => (<Card ...>))}] *)
Definition fieldExplanations (s : State) : list Node :=
  map (fieldCard s) (fields c).

(** *** Header tab: single detail panel (part_001) *)

Definition fieldDetail (field : IPField.t) : Node :=
  Elem "div" (cls "space-y-3")
    [ Elem "div" (cls "flex items-center space-x-2")
        [ Elem "Badge" (outlineBadge NoKey "") [Text (IPField.bits field)]
        ; Elem "h4" (cls "text-lg font-semibold") [Text (IPField.name field)] ]
    ; Elem "p" (cls "text-sm text-muted-foreground") [Text (IPField.description field)]
    ; Elem "p" noProps [Text (IPField.purpose field)]
    ; exampleBox "bg-muted p-3 rounded-md" "text-sm" (IPField.example field) ].

(** [const field = ipv4Fields.find((f) => f.name === hoveredField);
     return field ? (...) : null] *)
Definition fieldDetailContent (s : State) : Node :=
  match JS.find (fun f => JS.strictEqStr (hoveredField s) (IPField.name f)) (fields c) with
  | Some field => fieldDetail field
  | None => Null
  end.

(** [{hoveredField && (<Card className="border-2 border-blue-500">...)}]:
    a falsy [hoveredField] is itself the value of the expression. *)
Definition fieldDetails (s : State) : Node :=
  if JS.truthyStr (hoveredField s) then
    Elem "Card" (cls "border-2 border-blue-500")
      [ Elem "CardContent" (cls "pt-6") [ fieldDetailContent s ] ]
  else
    match hoveredField s with
    | Some e => Text e
    | None => Null
    end.

(** The [onMouseEnter] / [onMouseLeave] pairs of the cells of the header
    diagram. *)
Definition diagramHandlers : list (Handler * Handler) :=
  map (fun n => (CallSetHoveredField (Some n), CallSetHoveredField None)) (diagram c).

(** Every tab is [<TabsContent className="space-y-6"><Card><CardHeader>
    ... </CardHeader><CardContent ...> ... </CardContent></Card>
    </TabsContent>]; the [CardHeader] holds a fixed title. *)
Definition tabCard (title contentClass : string) (content : list Node) : Node :=
  Elem "TabsContent" (cls "space-y-6")
    [ Elem "Card" noProps
        [ Static title; Elem "CardContent" (cls contentClass) content ] ].

Definition headerTab (s : State) : Node :=
  tabCard "header structure title" ""
    [ if singlePanel c
      then Elem "div" (cls "space-y-6")
             [ Static "header diagram"; fieldDetails s ]
      else Elem "div" (cls "grid grid-cols-1 lg:grid-cols-3 gap-6")
             [ Elem "div" (cls "lg:col-span-2") [ Static "header diagram" ]
             ; Elem "div" (cls "lg:col-span-1")
                 [ Elem "div" (cls "space-y-3 max-h-[600px] overflow-y-auto")
                     (Elem "h3" (cls "text-lg font-semibold mb-4") [Text "Field Explanations"]
                      :: fieldExplanations s) ] ] ].

(** *** OSI Model tab *)

Definition layerFocus : string := "border-blue-500 bg-blue-50 dark:bg-blue-950".

Definition layerPlain : string :=
  "border-gray-200 dark:border-gray-700 hover:border-gray-300 dark:hover:border-gray-600".

Definition layerEmphasis : string := "scale-105 shadow-lg".

(** [`p-4 ... duration-200 ${focus ? ... : ...} ${hovered ? "scale-105 shadow-lg" : ""}`] *)
Definition layerClass (focus hovered : bool) : string :=
  "p-4 rounded-lg border-2 cursor-pointer transition-all duration-200 "
  ++ (if focus then layerFocus else layerPlain)
  ++ " " ++ (if hovered then layerEmphasis else "").

Definition protocolBadge (protocol : string) : Node :=
  Elem "Badge"
    (outlineBadge (StrKey protocol)
       (if String.eqb protocol (proto c)
        then "bg-blue-100 dark:bg-blue-900 border-blue-300" else ""))
    [Text protocol].

(** [{layer.isIPv4Layer && (<Badge ...>IPv4 Layer</Badge>)}] *)
Definition focusBadge (layer : OSILayer.t) : Node :=
  if JS.truthyFlag (OSILayer.isIPLayer layer)
  then Elem "Badge" (outlineBadge NoKey "bg-blue-100 dark:bg-blue-900")
         [Text (proto c ++ " Layer")]
  else Null.

Definition osiLayerRow (s : State) (layer : OSILayer.t) : Node :=
  Elem "div"
    (mkProps (NumKey (OSILayer.number layer))
       (layerClass (JS.truthyFlag (OSILayer.isIPLayer layer))
                   (JS.strictEqNum (hoveredLayer s) (OSILayer.number layer)))
       None
       (Some (CallSetHoveredLayer (Some (OSILayer.number layer))))
       (Some (CallSetHoveredLayer None))
       None)
    [ Elem "div" (cls "flex items-center justify-between")
        [ Elem "div" (cls "flex items-center space-x-3")
            [ Elem "Badge"
                (mkProps NoKey "text-lg px-3 py-1"
                   (Some (if JS.truthyFlag (OSILayer.isIPLayer layer)
                          then "default" else "secondary"))
                   None None None)
                [Num (OSILayer.number layer)]
            ; Elem "div" noProps
                [ Elem "h3" (cls "font-semibold text-lg") [Text (OSILayer.name layer)]
                ; Elem "p" (cls "text-sm text-muted-foreground")
                    [Text (OSILayer.description layer)] ] ]
        ; focusBadge layer ]
    ; Elem "div" (cls "mt-3 flex flex-wrap gap-2")
        (map protocolBadge (OSILayer.protocols layer)) ].

(** [{osiLayers.map((layer) => (<div ...>))}] *)
Definition osiLayerList (s : State) : list Node :=
  map (osiLayerRow s) (layers c).

Definition osiModelTab (s : State) : Node :=
  tabCard "OSI model title" ""
    [ Elem "div" (cls "space-y-4")
        [ Static "OSI model introduction"
        ; Elem "div" (cls "grid gap-2") (osiLayerList s) ] ].

(** *** Integration tab *)

Definition addedLabel : string := "← " ++ proto c ++ " Header Added".
Definition processedLabel : string := "← " ++ proto c ++ " Header Processed".

Definition integrationRow (label : string) (layer : OSILayer.t) : Node :=
  Elem "div" (keyed (NumKey (OSILayer.number layer)) "flex items-center space-x-2")
    [ Elem "Badge" (outlineBadge NoKey "w-8 text-center") [Num (OSILayer.number layer)]
    ; Elem "div" (cls "text-sm")
        [ Elem "span" (cls "font-medium") [Text (OSILayer.name layer)]
        ; if JS.truthyFlag (OSILayer.isIPLayer layer)
          then Elem "span" (cls "text-blue-600 dark:text-blue-400 ml-2") [Text label]
          else Null ] ].

(** The layers under the heading "Sending (Top to Bottom)":
    [osiLayers.slice().reverse()]. *)
Definition sendingLayers : list OSILayer.t := JS.reverse (JS.slice (layers c)).

(** The layers under the heading "Receiving (Bottom to Top)": [osiLayers]. *)
Definition receivingLayers : list OSILayer.t := layers c.

Definition sendingList : list Node := map (integrationRow addedLabel) sendingLayers.
Definition receivingList : list Node := map (integrationRow processedLabel) receivingLayers.

Definition sendingHeading : string := "Sending (Top to Bottom)".
Definition receivingHeading : string := "Receiving (Bottom to Top)".

Definition integrationTab : Node :=
  tabCard "integration title" "space-y-6"
    [ Static "integration prose"
    ; Elem "div" (cls "bg-muted p-6 rounded-lg")
        [ Elem "div" (cls "space-y-3")
            [ Elem "div" (cls "text-center font-semibold mb-4")
                [Text "Data Transmission Process"]
            ; Elem "div" (cls "grid grid-cols-1 md:grid-cols-2 gap-6")
                [ Elem "div" noProps
                    [ Elem "h4" (cls "font-semibold mb-3 text-green-600") [Text sendingHeading]
                    ; Elem "div" (cls "space-y-2") sendingList ]
                ; Elem "div" noProps
                    [ Elem "h4" (cls "font-semibold mb-3 text-blue-600") [Text receivingHeading]
                    ; Elem "div" (cls "space-y-2") receivingList ] ] ] ]
    ; Elem "Card" (cls "border-blue-200 dark:border-blue-800")
        [ Static "header processing at layer 3" ]
    ; Static "key takeaway" ].

(** *** The page *)

(** [<Tabs defaultValue=...>] *)
Definition defaultTab : Tab := if hasStory c then Story else HeaderDetail.

(** Modelled from the spec: the [Tabs] widget of [@/components/ui/tabs]
    is not part of the sources; per the spec, selecting a section
    replaces the rendered content region, so only the content of the
    active tab is rendered. *)
Definition tabsContent (active : Tab) (s : State) : Node :=
  match active with
  | Story => if hasStory c then Static "story" else Null
  | HeaderDetail => headerTab s
  | OsiModel => osiModelTab s
  | Integration => integrationTab
  end.

Definition rootClass (s : State) : string :=
  "min-h-screen transition-colors duration-300 "
  ++ (if isDarkMode s then "dark bg-gray-900 text-white" else "bg-gray-50 text-gray-900").

Definition themeButton (s : State) : Node :=
  Elem "Button" (mkProps NoKey "ml-auto" (Some "outline") None None (Some CallToggleTheme))
    [ if isDarkMode s then Elem "Sun" (cls "h-4 w-4") [] else Elem "Moon" (cls "h-4 w-4") [] ].

Definition render (active : Tab) (s : State) : Node :=
  Elem "div" (cls (rootClass s))
    [ Elem "header"
        (cls "border-b bg-background/95 backdrop-blur supports-[backdrop-filter]:bg-background/60")
        [ Elem "div" (cls "container mx-auto px-4 py-4")
            [ Elem "div" (cls "flex items-center justify-between")
                [ Static "title"; themeButton s ] ] ]
    ; Elem "main" (cls "container mx-auto px-4 py-8")
        [ Elem "Tabs" (cls "space-y-8") [ Static "TabsList"; tabsContent active s ] ] ].

End Views.

(** ** Queries on a rendered tree *)

Definition tagOf (n : Node) : string :=
  match n with
  | Elem t _ _ => t
  | _ => ""
  end.

(** A node and everything below it, in document order. *)
Fixpoint descendants (n : Node) : list Node :=
  n :: match n with
       | Elem _ _ ch => flat_map descendants ch
       | _ => []
       end.

(** The nodes of a tree that satisfy a test, in document order. *)
Definition select (p : Node -> bool) (n : Node) : list Node :=
  filter p (descendants n).

(** The non-empty pieces of text a tree shows. *)
Definition shownText (n : Node) : list string :=
  flat_map (fun d => match d with
                     | Text t => if String.eqb t "" then [] else [t]
                     | _ => []
                     end) (descendants n).

(** The numeric keys of a rendered tree, in document order. *)
Definition numKeys (n : Node) : list Z :=
  flat_map (fun d => match keyOf d with
                     | NumKey k => [k]
                     | _ => []
                     end) (descendants n).

(** A [<Card key={field.name} ...>] of the field explanations. *)
Definition isFieldCard (n : Node) : bool :=
  String.eqb (tagOf n) "Card"
  && match keyOf n with
     | StrKey _ => true
     | _ => false
     end.

(** A field card carries the emphasised styling. *)
Definition isHighlightedCard (n : Node) : bool :=
  String.eqb (classOf n) (cardClass true).

(** A layer row carries the hover emphasis (scale and shadow). *)
Definition isEmphasizedRow (n : Node) : bool :=
  String.eqb (classOf n) (layerClass true true)
  || String.eqb (classOf n) (layerClass false true).

(** A layer row carries the styling reserved for the IP layer. *)
Definition hasFocusStyle (n : Node) : bool :=
  String.eqb (classOf n) (layerClass true true)
  || String.eqb (classOf n) (layerClass true false).

(** A row of the integration tab shows a label after the layer name. *)
Definition isAnnotatedRow (n : Node) : bool :=
  (1 <? length (shownText n))%nat.

Definition isFocus (l : OSILayer.t) : bool := JS.truthyFlag (OSILayer.isIPLayer l).

(** The layer numbers from the top of the stack down, and from the bottom
    up. *)
Definition descending : list Z := [7; 6; 5; 4; 3; 2; 1].
Definition ascending : list Z := [1; 2; 3; 4; 5; 6; 7].

(** The detail panel of [src/unnamed/part_001] around a given content. *)
Definition detailPanel (content : Node) : Node :=
  Elem "Card" (cls "border-2 border-blue-500")
    [ Elem "CardContent" (cls "pt-6") [ content ] ].

(** ** The header diagrams

    The markup that the [Static "header diagram"] leaf of [headerTab]
    stands for, element by element. *)

(** The props of a diagram cell: its [className],
    [onMouseEnter={() => setHoveredField(name)}] and
    [onMouseLeave={() => setHoveredField(null)}]. *)
Definition cell (cl name : string) : Props :=
  mkProps NoKey cl None
    (Some (CallSetHoveredField (Some name)))
    (Some (CallSetHoveredField None))
    None.

(** [Array.from({ length: n }, (_, i) => f(i))] *)
Definition arrayFrom {A : Type} (n : nat) (f : Z -> A) : list A :=
  map (fun i => f (Z.of_nat i)) (seq 0 n).

(** [(_, i) => (<div key={i} className="text-gray-500">{i % 8 === 0 ? i : ""}</div>)];
    [%] is the remainder that takes the sign of the dividend. *)
Definition bitRulerCell (i : Z) : Node :=
  Elem "div" (keyed (NumKey i) "text-gray-500")
    [ if Z.eqb (Z.rem i 8) 0 then Num i else Text "" ].

(** [{Array.from({ length: 32 }, (_, i) => (...))}] *)
Definition bitRuler : list Node := arrayFrom 32 bitRulerCell.

(** The header diagram of the first document of [src/unnamed/part_000] (lines 414-600). *)
Definition part000_ipv4_diagram : Node :=
  Elem "div" (cls "bg-white dark:bg-gray-800 p-6 rounded-lg border-2 border-blue-200 dark:border-blue-700")
    [ Elem "div" (cls "text-center mb-6")
        [ Elem "h3" (cls "text-lg font-semibold") [Text "IPv4 Packet Header"]
        ; Elem "p" (cls "text-sm text-muted-foreground") [Text "Click on any field to learn more"]
        ; Elem "div" (cls "text-xs text-gray-500 mt-2") [Text "20 bytes minimum • 60 bytes maximum"] ]
    ; Elem "div" (cls "space-y-2")
        [ Elem "div" (cls "flex h-12 rounded-md overflow-hidden border-2 border-gray-300 dark:border-gray-600")
            [ Elem "div" (cell "flex-none w-16 bg-blue-200 dark:bg-blue-800 border-r border-gray-300 dark:border-gray-600 flex items-center justify-center cursor-pointer hover:bg-blue-300 dark:hover:bg-blue-700 transition-colors"
                 "Version")
                [ Elem "div" (cls "text-center")
                    [ Elem "div" (cls "text-xs font-semibold") [Text "Ver"]
                    ; Elem "div" (cls "text-xs text-gray-600 dark:text-gray-300") [Text "4b"] ] ]
            ; Elem "div" (cell "flex-none w-16 bg-green-200 dark:bg-green-800 border-r border-gray-300 dark:border-gray-600 flex items-center justify-center cursor-pointer hover:bg-green-300 dark:hover:bg-green-700 transition-colors"
                 "IHL")
                [ Elem "div" (cls "text-center")
                    [ Elem "div" (cls "text-xs font-semibold") [Text "IHL"]
                    ; Elem "div" (cls "text-xs text-gray-600 dark:text-gray-300") [Text "4b"] ] ]
            ; Elem "div" (cell "flex-none w-24 bg-yellow-200 dark:bg-yellow-800 border-r border-gray-300 dark:border-gray-600 flex items-center justify-center cursor-pointer hover:bg-yellow-300 dark:hover:bg-yellow-700 transition-colors"
                 "Type of Service")
                [ Elem "div" (cls "text-center")
                    [ Elem "div" (cls "text-xs font-semibold") [Text "Type of Service"]
                    ; Elem "div" (cls "text-xs text-gray-600 dark:text-gray-300") [Text "8 bits"] ] ]
            ; Elem "div" (cell "flex-1 bg-purple-200 dark:bg-purple-800 flex items-center justify-center cursor-pointer hover:bg-purple-300 dark:hover:bg-purple-700 transition-colors"
                 "Total Length")
                [ Elem "div" (cls "text-center")
                    [ Elem "div" (cls "text-xs font-semibold") [Text "Total Length"]
                    ; Elem "div" (cls "text-xs text-gray-600 dark:text-gray-300") [Text "16 bits"] ] ] ]
        ; Elem "div" (cls "flex h-12 rounded-md overflow-hidden border-2 border-gray-300 dark:border-gray-600")
            [ Elem "div" (cell "flex-1 bg-red-200 dark:bg-red-800 border-r border-gray-300 dark:border-gray-600 flex items-center justify-center cursor-pointer hover:bg-red-300 dark:hover:bg-red-700 transition-colors"
                 "Identification")
                [ Elem "div" (cls "text-center")
                    [ Elem "div" (cls "text-xs font-semibold") [Text "Identification"]
                    ; Elem "div" (cls "text-xs text-gray-600 dark:text-gray-300") [Text "16 bits"] ] ]
            ; Elem "div" (cell "flex-none w-20 bg-indigo-200 dark:bg-indigo-800 border-r border-gray-300 dark:border-gray-600 flex items-center justify-center cursor-pointer hover:bg-indigo-300 dark:hover:bg-indigo-700 transition-colors"
                 "Flags")
                [ Elem "div" (cls "text-center")
                    [ Elem "div" (cls "text-xs font-semibold") [Text "Flags"]
                    ; Elem "div" (cls "text-xs text-gray-600 dark:text-gray-300") [Text "3b"] ] ]
            ; Elem "div" (cell "flex-1 bg-pink-200 dark:bg-pink-800 flex items-center justify-center cursor-pointer hover:bg-pink-300 dark:hover:bg-pink-700 transition-colors"
                 "Fragment Offset")
                [ Elem "div" (cls "text-center")
                    [ Elem "div" (cls "text-xs font-semibold") [Text "Fragment Offset"]
                    ; Elem "div" (cls "text-xs text-gray-600 dark:text-gray-300") [Text "13 bits"] ] ] ]
        ; Elem "div" (cls "flex h-12 rounded-md overflow-hidden border-2 border-gray-300 dark:border-gray-600")
            [ Elem "div" (cell "flex-none w-24 bg-teal-200 dark:bg-teal-800 border-r border-gray-300 dark:border-gray-600 flex items-center justify-center cursor-pointer hover:bg-teal-300 dark:hover:bg-teal-700 transition-colors"
                 "Time to Live")
                [ Elem "div" (cls "text-center")
                    [ Elem "div" (cls "text-xs font-semibold") [Text "TTL"]
                    ; Elem "div" (cls "text-xs text-gray-600 dark:text-gray-300") [Text "8 bits"] ] ]
            ; Elem "div" (cell "flex-none w-24 bg-orange-200 dark:bg-orange-800 border-r border-gray-300 dark:border-gray-600 flex items-center justify-center cursor-pointer hover:bg-orange-300 dark:hover:bg-orange-700 transition-colors"
                 "Protocol")
                [ Elem "div" (cls "text-center")
                    [ Elem "div" (cls "text-xs font-semibold") [Text "Protocol"]
                    ; Elem "div" (cls "text-xs text-gray-600 dark:text-gray-300") [Text "8 bits"] ] ]
            ; Elem "div" (cell "flex-1 bg-cyan-200 dark:bg-cyan-800 flex items-center justify-center cursor-pointer hover:bg-cyan-300 dark:hover:bg-cyan-700 transition-colors"
                 "Header Checksum")
                [ Elem "div" (cls "text-center")
                    [ Elem "div" (cls "text-xs font-semibold") [Text "Header Checksum"]
                    ; Elem "div" (cls "text-xs text-gray-600 dark:text-gray-300") [Text "16 bits"] ] ] ]
        ; Elem "div" (cls "flex h-12 rounded-md overflow-hidden border-2 border-gray-300 dark:border-gray-600")
            [ Elem "div" (cell "w-full bg-emerald-200 dark:bg-emerald-800 flex items-center justify-center cursor-pointer hover:bg-emerald-300 dark:hover:bg-emerald-700 transition-colors"
                 "Source IP Address")
                [ Elem "div" (cls "text-center")
                    [ Elem "div" (cls "text-sm font-semibold") [Text "Source IP Address"]
                    ; Elem "div" (cls "text-xs text-gray-600 dark:text-gray-300") [Text "32 bits • Example: 192.168.1.100"] ] ] ]
        ; Elem "div" (cls "flex h-12 rounded-md overflow-hidden border-2 border-gray-300 dark:border-gray-600")
            [ Elem "div" (cell "w-full bg-violet-200 dark:bg-violet-800 flex items-center justify-center cursor-pointer hover:bg-violet-300 dark:hover:bg-violet-700 transition-colors"
                 "Destination IP Address")
                [ Elem "div" (cls "text-center")
                    [ Elem "div" (cls "text-sm font-semibold") [Text "Destination IP Address"]
                    ; Elem "div" (cls "text-xs text-gray-600 dark:text-gray-300") [Text "32 bits • Example: 8.8.8.8"] ] ] ]
        ; Elem "div" (cls "flex h-10 rounded-md overflow-hidden border-2 border-dashed border-gray-400 dark:border-gray-500 opacity-75")
            [ Elem "div" (cell "w-full bg-gray-200 dark:bg-gray-700 flex items-center justify-center cursor-pointer hover:bg-gray-300 dark:hover:bg-gray-600 transition-colors"
                 "Options")
                [ Elem "div" (cls "text-center")
                    [ Elem "div" (cls "text-xs font-semibold") [Text "Options + Padding (Optional)"]
                    ; Elem "div" (cls "text-xs text-gray-600 dark:text-gray-400") [Text "0-40 bytes • Rarely used"] ] ] ] ]
    ; Elem "div" (cls "mt-6 pt-4 border-t border-gray-200 dark:border-gray-700")
        [ Elem "div" (cls "flex items-center justify-between text-xs text-gray-600 dark:text-gray-400")
            [ Elem "div" (cls "flex items-center space-x-4")
                [ Elem "div" (cls "flex items-center space-x-1")
                    [ Elem "div" (cls "w-3 h-3 bg-blue-200 dark:bg-blue-800 rounded") []
                    ; Elem "span" noProps [Text "Control Fields"] ]
                ; Elem "div" (cls "flex items-center space-x-1")
                    [ Elem "div" (cls "w-3 h-3 bg-emerald-200 dark:bg-emerald-800 rounded") []
                    ; Elem "span" noProps [Text "Addressing"] ]
                ; Elem "div" (cls "flex items-center space-x-1")
                    [ Elem "div" (cls "w-3 h-3 bg-red-200 dark:bg-red-800 rounded") []
                    ; Elem "span" noProps [Text "Fragmentation"] ] ]
            ; Elem "div" (cls "text-xs") [Text "Total: 20-60 bytes"] ] ] ].

(** The header diagram of the second document of [src/unnamed/part_000] (lines 1246-1392). *)
Definition part000_ipv6_diagram : Node :=
  Elem "div" (cls "bg-white dark:bg-gray-800 p-6 rounded-lg border-2 border-blue-200 dark:border-blue-700")
    [ Elem "div" (cls "text-center mb-6")
        [ Elem "h3" (cls "text-lg font-semibold") [Text "IPv6 Packet Header"]
        ; Elem "p" (cls "text-sm text-muted-foreground") [Text "Click on any field to learn more"]
        ; Elem "div" (cls "text-xs text-gray-500 mt-2") [Text "40 bytes fixed size"] ]
    ; Elem "div" (cls "space-y-2")
        [ Elem "div" (cls "flex h-12 rounded-md overflow-hidden border-2 border-gray-300 dark:border-gray-600")
            [ Elem "div" (cell "flex-none w-16 bg-blue-200 dark:bg-blue-800 border-r border-gray-300 dark:border-gray-600 flex items-center justify-center cursor-pointer hover:bg-blue-300 dark:hover:bg-blue-700 transition-colors"
                 "Version")
                [ Elem "div" (cls "text-center")
                    [ Elem "div" (cls "text-xs font-semibold") [Text "Ver"]
                    ; Elem "div" (cls "text-xs text-gray-600 dark:text-gray-300") [Text "4b"] ] ]
            ; Elem "div" (cell "flex-none w-24 bg-green-200 dark:bg-green-800 border-r border-gray-300 dark:border-gray-600 flex items-center justify-center cursor-pointer hover:bg-green-300 dark:hover:bg-green-700 transition-colors"
                 "Traffic Class")
                [ Elem "div" (cls "text-center")
                    [ Elem "div" (cls "text-xs font-semibold") [Text "Traffic Class"]
                    ; Elem "div" (cls "text-xs text-gray-600 dark:text-gray-300") [Text "8b"] ] ]
            ; Elem "div" (cell "flex-1 bg-yellow-200 dark:bg-yellow-800 flex items-center justify-center cursor-pointer hover:bg-yellow-300 dark:hover:bg-yellow-700 transition-colors"
                 "Flow Label")
                [ Elem "div" (cls "text-center")
                    [ Elem "div" (cls "text-xs font-semibold") [Text "Flow Label"]
                    ; Elem "div" (cls "text-xs text-gray-600 dark:text-gray-300") [Text "20 bits"] ] ] ]
        ; Elem "div" (cls "flex h-12 rounded-md overflow-hidden border-2 border-gray-300 dark:border-gray-600")
            [ Elem "div" (cell "flex-1 bg-purple-200 dark:bg-purple-800 border-r border-gray-300 dark:border-gray-600 flex items-center justify-center cursor-pointer hover:bg-purple-300 dark:hover:bg-purple-700 transition-colors"
                 "Payload Length")
                [ Elem "div" (cls "text-center")
                    [ Elem "div" (cls "text-xs font-semibold") [Text "Payload Length"]
                    ; Elem "div" (cls "text-xs text-gray-600 dark:text-gray-300") [Text "16 bits"] ] ]
            ; Elem "div" (cell "flex-none w-24 bg-orange-200 dark:bg-orange-800 border-r border-gray-300 dark:border-gray-600 flex items-center justify-center cursor-pointer hover:bg-orange-300 dark:hover:bg-orange-700 transition-colors"
                 "Next Header")
                [ Elem "div" (cls "text-center")
                    [ Elem "div" (cls "text-xs font-semibold") [Text "Next Header"]
                    ; Elem "div" (cls "text-xs text-gray-600 dark:text-gray-300") [Text "8b"] ] ]
            ; Elem "div" (cell "flex-none w-24 bg-teal-200 dark:bg-teal-800 flex items-center justify-center cursor-pointer hover:bg-teal-300 dark:hover:bg-teal-700 transition-colors"
                 "Hop Limit")
                [ Elem "div" (cls "text-center")
                    [ Elem "div" (cls "text-xs font-semibold") [Text "Hop Limit"]
                    ; Elem "div" (cls "text-xs text-gray-600 dark:text-gray-300") [Text "8b"] ] ] ]
        ; Elem "div" (cls "flex h-16 rounded-md overflow-hidden border-2 border-gray-300 dark:border-gray-600")
            [ Elem "div" (cell "w-full bg-emerald-200 dark:bg-emerald-800 flex items-center justify-center cursor-pointer hover:bg-emerald-300 dark:hover:bg-emerald-700 transition-colors"
                 "Source Address")
                [ Elem "div" (cls "text-center")
                    [ Elem "div" (cls "text-sm font-semibold") [Text "Source Address"]
                    ; Elem "div" (cls "text-xs text-gray-600 dark:text-gray-300") [Text "128 bits • Example: 2001:0db8:85a3::8a2e:0370:7334"] ] ] ]
        ; Elem "div" (cls "flex h-16 rounded-md overflow-hidden border-2 border-gray-300 dark:border-gray-600")
            [ Elem "div" (cell "w-full bg-violet-200 dark:bg-violet-800 flex items-center justify-center cursor-pointer hover:bg-violet-300 dark:hover:bg-violet-700 transition-colors"
                 "Destination Address")
                [ Elem "div" (cls "text-center")
                    [ Elem "div" (cls "text-sm font-semibold") [Text "Destination Address"]
                    ; Elem "div" (cls "text-xs text-gray-600 dark:text-gray-300") [Text "128 bits • Example: 2001:4860:4860::8888"] ] ] ]
        ; Elem "div" (cls "flex h-10 rounded-md overflow-hidden border-2 border-dashed border-gray-400 dark:border-gray-500 opacity-75")
            [ Elem "div" (cell "w-full bg-gray-200 dark:bg-gray-700 flex items-center justify-center cursor-pointer hover:bg-gray-300 dark:hover:bg-gray-600 transition-colors"
                 "Extension Headers")
                [ Elem "div" (cls "text-center")
                    [ Elem "div" (cls "text-xs font-semibold") [Text "Extension Headers (Optional)"]
                    ; Elem "div" (cls "text-xs text-gray-600 dark:text-gray-400") [Text "Variable length • Hop-by-Hop, Routing, Fragment, etc."] ] ] ] ]
    ; Elem "div" (cls "mt-6 pt-4 border-t border-gray-200 dark:border-gray-700")
        [ Elem "div" (cls "flex items-center justify-between text-xs text-gray-600 dark:text-gray-400")
            [ Elem "div" (cls "flex items-center space-x-4")
                [ Elem "div" (cls "flex items-center space-x-1")
                    [ Elem "div" (cls "w-3 h-3 bg-blue-200 dark:bg-blue-800 rounded") []
                    ; Elem "span" noProps [Text "Control Fields"] ]
                ; Elem "div" (cls "flex items-center space-x-1")
                    [ Elem "div" (cls "w-3 h-3 bg-emerald-200 dark:bg-emerald-800 rounded") []
                    ; Elem "span" noProps [Text "Addressing"] ]
                ; Elem "div" (cls "flex items-center space-x-1")
                    [ Elem "div" (cls "w-3 h-3 bg-yellow-200 dark:bg-yellow-800 rounded") []
                    ; Elem "span" noProps [Text "Flow Control"] ] ]
            ; Elem "div" (cls "text-xs") [Text "Total: 40 bytes fixed"] ] ] ].

(** The header diagram of [src/unnamed/part_001] (lines 216-358). *)
Definition part001_ipv4_diagram : Node :=
  Elem "div" (cls "bg-white dark:bg-gray-800 p-6 rounded-lg border-2 border-blue-200 dark:border-blue-700")
    [ Elem "div" (cls "text-center mb-4")
        [ Elem "h3" (cls "text-lg font-semibold") [Text "IPv4 Packet Header (20-60 bytes)"]
        ; Elem "p" (cls "text-sm text-muted-foreground") [Text "Hover over each field for detailed information"] ]
    ; Elem "div" (cls "grid grid-cols-32 gap-px mb-2 text-xs text-center") bitRuler
    ; Elem "div" (cls "space-y-px")
        [ Elem "div" (cls "grid grid-cols-32 gap-px")
            [ Elem "div" (cell "col-span-4 bg-blue-100 dark:bg-blue-900 border border-blue-300 dark:border-blue-700 p-2 text-center text-xs font-medium cursor-pointer hover:bg-blue-200 dark:hover:bg-blue-800 transition-colors"
                 "Version") [Text "Ver"]
            ; Elem "div" (cell "col-span-4 bg-green-100 dark:bg-green-900 border border-green-300 dark:border-green-700 p-2 text-center text-xs font-medium cursor-pointer hover:bg-green-200 dark:hover:bg-green-800 transition-colors"
                 "IHL") [Text "IHL"]
            ; Elem "div" (cell "col-span-8 bg-yellow-100 dark:bg-yellow-900 border border-yellow-300 dark:border-yellow-700 p-2 text-center text-xs font-medium cursor-pointer hover:bg-yellow-200 dark:hover:bg-yellow-800 transition-colors"
                 "Type of Service") [Text "Type of Service"]
            ; Elem "div" (cell "col-span-16 bg-purple-100 dark:bg-purple-900 border border-purple-300 dark:border-purple-700 p-2 text-center text-xs font-medium cursor-pointer hover:bg-purple-200 dark:hover:bg-purple-800 transition-colors"
                 "Total Length") [Text "Total Length"] ]
        ; Elem "div" (cls "grid grid-cols-32 gap-px")
            [ Elem "div" (cell "col-span-16 bg-red-100 dark:bg-red-900 border border-red-300 dark:border-red-700 p-2 text-center text-xs font-medium cursor-pointer hover:bg-red-200 dark:hover:bg-red-800 transition-colors"
                 "Identification") [Text "Identification"]
            ; Elem "div" (cell "col-span-3 bg-indigo-100 dark:bg-indigo-900 border border-indigo-300 dark:border-indigo-700 p-2 text-center text-xs font-medium cursor-pointer hover:bg-indigo-200 dark:hover:bg-indigo-800 transition-colors"
                 "Flags") [Text "Flags"]
            ; Elem "div" (cell "col-span-13 bg-pink-100 dark:bg-pink-900 border border-pink-300 dark:border-pink-700 p-2 text-center text-xs font-medium cursor-pointer hover:bg-pink-200 dark:hover:bg-pink-800 transition-colors"
                 "Fragment Offset") [Text "Fragment Offset"] ]
        ; Elem "div" (cls "grid grid-cols-32 gap-px")
            [ Elem "div" (cell "col-span-8 bg-teal-100 dark:bg-teal-900 border border-teal-300 dark:border-teal-700 p-2 text-center text-xs font-medium cursor-pointer hover:bg-teal-200 dark:hover:bg-teal-800 transition-colors"
                 "Time to Live") [Text "TTL"]
            ; Elem "div" (cell "col-span-8 bg-orange-100 dark:bg-orange-900 border border-orange-300 dark:border-orange-700 p-2 text-center text-xs font-medium cursor-pointer hover:bg-orange-200 dark:hover:bg-orange-800 transition-colors"
                 "Protocol") [Text "Protocol"]
            ; Elem "div" (cell "col-span-16 bg-cyan-100 dark:bg-cyan-900 border border-cyan-300 dark:border-cyan-700 p-2 text-center text-xs font-medium cursor-pointer hover:bg-cyan-200 dark:hover:bg-cyan-800 transition-colors"
                 "Header Checksum") [Text "Header Checksum"] ]
        ; Elem "div" (cls "grid grid-cols-32 gap-px")
            [ Elem "div" (cell "col-span-32 bg-emerald-100 dark:bg-emerald-900 border border-emerald-300 dark:border-emerald-700 p-2 text-center text-xs font-medium cursor-pointer hover:bg-emerald-200 dark:hover:bg-emerald-800 transition-colors"
                 "Source IP Address") [Text "Source IP Address (32 bits)"] ]
        ; Elem "div" (cls "grid grid-cols-32 gap-px")
            [ Elem "div" (cell "col-span-32 bg-violet-100 dark:bg-violet-900 border border-violet-300 dark:border-violet-700 p-2 text-center text-xs font-medium cursor-pointer hover:bg-violet-200 dark:hover:bg-violet-800 transition-colors"
                 "Destination IP Address") [Text "Destination IP Address (32 bits)"] ]
        ; Elem "div" (cls "grid grid-cols-32 gap-px")
            [ Elem "div" (cell "col-span-32 bg-gray-100 dark:bg-gray-700 border border-gray-300 dark:border-gray-600 p-2 text-center text-xs font-medium cursor-pointer hover:bg-gray-200 dark:hover:bg-gray-600 transition-colors"
                 "Options") [Text "Options (0-40 bytes, variable length)"] ] ] ].

(** The header diagram of [src/app/page.tsx] (lines 407-553). *)
Definition page_ipv6_diagram : Node :=
  Elem "div" (cls "bg-white dark:bg-gray-800 p-6 rounded-lg border-2 border-blue-200 dark:border-blue-700")
    [ Elem "div" (cls "text-center mb-6")
        [ Elem "h3" (cls "text-lg font-semibold") [Text "IPv6 Packet Header"]
        ; Elem "p" (cls "text-sm text-muted-foreground") [Text "Click on any field to learn more"]
        ; Elem "div" (cls "text-xs text-gray-500 mt-2") [Text "40 bytes fixed size"] ]
    ; Elem "div" (cls "space-y-2")
        [ Elem "div" (cls "flex h-12 rounded-md overflow-hidden border-2 border-gray-300 dark:border-gray-600")
            [ Elem "div" (cell "flex-none w-16 bg-blue-200 dark:bg-blue-800 border-r border-gray-300 dark:border-gray-600 flex items-center justify-center cursor-pointer hover:bg-blue-300 dark:hover:bg-blue-700 transition-colors"
                 "Version")
                [ Elem "div" (cls "text-center")
                    [ Elem "div" (cls "text-xs font-semibold") [Text "Ver"]
                    ; Elem "div" (cls "text-xs text-gray-600 dark:text-gray-300") [Text "4b"] ] ]
            ; Elem "div" (cell "flex-none w-24 bg-green-200 dark:bg-green-800 border-r border-gray-300 dark:border-gray-600 flex items-center justify-center cursor-pointer hover:bg-green-300 dark:hover:bg-green-700 transition-colors"
                 "Traffic Class")
                [ Elem "div" (cls "text-center")
                    [ Elem "div" (cls "text-xs font-semibold") [Text "Traffic Class"]
                    ; Elem "div" (cls "text-xs text-gray-600 dark:text-gray-300") [Text "8b"] ] ]
            ; Elem "div" (cell "flex-1 bg-yellow-200 dark:bg-yellow-800 flex items-center justify-center cursor-pointer hover:bg-yellow-300 dark:hover:bg-yellow-700 transition-colors"
                 "Flow Label")
                [ Elem "div" (cls "text-center")
                    [ Elem "div" (cls "text-xs font-semibold") [Text "Flow Label"]
                    ; Elem "div" (cls "text-xs text-gray-600 dark:text-gray-300") [Text "20 bits"] ] ] ]
        ; Elem "div" (cls "flex h-12 rounded-md overflow-hidden border-2 border-gray-300 dark:border-gray-600")
            [ Elem "div" (cell "flex-1 bg-purple-200 dark:bg-purple-800 border-r border-gray-300 dark:border-gray-600 flex items-center justify-center cursor-pointer hover:bg-purple-300 dark:hover:bg-purple-700 transition-colors"
                 "Payload Length")
                [ Elem "div" (cls "text-center")
                    [ Elem "div" (cls "text-xs font-semibold") [Text "Payload Length"]
                    ; Elem "div" (cls "text-xs text-gray-600 dark:text-gray-300") [Text "16 bits"] ] ]
            ; Elem "div" (cell "flex-none w-24 bg-orange-200 dark:bg-orange-800 border-r border-gray-300 dark:border-gray-600 flex items-center justify-center cursor-pointer hover:bg-orange-300 dark:hover:bg-orange-700 transition-colors"
                 "Next Header")
                [ Elem "div" (cls "text-center")
                    [ Elem "div" (cls "text-xs font-semibold") [Text "Next Header"]
                    ; Elem "div" (cls "text-xs text-gray-600 dark:text-gray-300") [Text "8b"] ] ]
            ; Elem "div" (cell "flex-none w-24 bg-teal-200 dark:bg-teal-800 flex items-center justify-center cursor-pointer hover:bg-teal-300 dark:hover:bg-teal-700 transition-colors"
                 "Hop Limit")
                [ Elem "div" (cls "text-center")
                    [ Elem "div" (cls "text-xs font-semibold") [Text "Hop Limit"]
                    ; Elem "div" (cls "text-xs text-gray-600 dark:text-gray-300") [Text "8b"] ] ] ]
        ; Elem "div" (cls "flex h-16 rounded-md overflow-hidden border-2 border-gray-300 dark:border-gray-600")
            [ Elem "div" (cell "w-full bg-emerald-200 dark:bg-emerald-800 flex items-center justify-center cursor-pointer hover:bg-emerald-300 dark:hover:bg-emerald-700 transition-colors"
                 "Source Address")
                [ Elem "div" (cls "text-center")
                    [ Elem "div" (cls "text-sm font-semibold") [Text "Source Address"]
                    ; Elem "div" (cls "text-xs text-gray-600 dark:text-gray-300") [Text "128 bits • Example: 2001:0db8:85a3:0000:0000:8a2e:0370:7334"] ] ] ]
        ; Elem "div" (cls "flex h-16 rounded-md overflow-hidden border-2 border-gray-300 dark:border-gray-600")
            [ Elem "div" (cell "w-full bg-violet-200 dark:bg-violet-800 flex items-center justify-center cursor-pointer hover:bg-violet-300 dark:hover:bg-violet-700 transition-colors"
                 "Destination Address")
                [ Elem "div" (cls "text-center")
                    [ Elem "div" (cls "text-sm font-semibold") [Text "Destination Address"]
                    ; Elem "div" (cls "text-xs text-gray-600 dark:text-gray-300") [Text "128 bits • Example: 2001:4860:4860::8888"] ] ] ]
        ; Elem "div" (cls "flex h-10 rounded-md overflow-hidden border-2 border-dashed border-gray-400 dark:border-gray-500 opacity-75")
            [ Elem "div" (cell "w-full bg-gray-200 dark:bg-gray-700 flex items-center justify-center cursor-pointer hover:bg-gray-300 dark:hover:bg-gray-600 transition-colors"
                 "Extension Headers")
                [ Elem "div" (cls "text-center")
                    [ Elem "div" (cls "text-xs font-semibold") [Text "Extension Headers (Optional)"]
                    ; Elem "div" (cls "text-xs text-gray-600 dark:text-gray-400") [Text "Variable length • Hop-by-Hop, Routing, Fragment, etc."] ] ] ] ]
    ; Elem "div" (cls "mt-6 pt-4 border-t border-gray-200 dark:border-gray-700")
        [ Elem "div" (cls "flex items-center justify-between text-xs text-gray-600 dark:text-gray-400")
            [ Elem "div" (cls "flex items-center space-x-4")
                [ Elem "div" (cls "flex items-center space-x-1")
                    [ Elem "div" (cls "w-3 h-3 bg-blue-200 dark:bg-blue-800 rounded") []
                    ; Elem "span" noProps [Text "Control Fields"] ]
                ; Elem "div" (cls "flex items-center space-x-1")
                    [ Elem "div" (cls "w-3 h-3 bg-emerald-200 dark:bg-emerald-800 rounded") []
                    ; Elem "span" noProps [Text "Addressing"] ]
                ; Elem "div" (cls "flex items-center space-x-1")
                    [ Elem "div" (cls "w-3 h-3 bg-yellow-200 dark:bg-yellow-800 rounded") []
                    ; Elem "span" noProps [Text "Flow Control"] ] ]
            ; Elem "div" (cls "text-xs") [Text "Total: 40 bytes fixed"] ] ] ].

Definition headerDiagram (a : App) : Node :=
  match a with
  | Part000_IPv4App => part000_ipv4_diagram
  | Part000_IPv6App => part000_ipv6_diagram
  | Part001_IPv4App => part001_ipv4_diagram
  | Page_IPv6App => page_ipv6_diagram
  end.

(** The [<TabsTrigger value=...>]s of the [TabsList], in source order. *)
Definition tabTriggers (c : Config) : list Tab :=
  if hasStory c
  then [Story; HeaderDetail; OsiModel; Integration]
  else [HeaderDetail; OsiModel; Integration].

(** ** More queries on a rendered tree *)

Definition optList {A : Type} (o : option A) : list A :=
  match o with
  | Some x => [x]
  | None => []
  end.

(** The handlers a tree installs, in document order. *)
Definition handlersOf (n : Node) : list Handler :=
  flat_map (fun d => optList (onMouseEnter (propsOf d))
                     ++ optList (onMouseLeave (propsOf d))
                     ++ optList (onClick (propsOf d)))%list
           (descendants n).

(** The [onMouseEnter] / [onMouseLeave] pairs of the nodes that have both. *)
Definition hoverPairs (n : Node) : list (Handler * Handler) :=
  flat_map (fun d => match onMouseEnter (propsOf d), onMouseLeave (propsOf d) with
                     | Some e, Some l => [(e, l)]
                     | _, _ => []
                     end) (descendants n).

(** The numbers a tree shows. *)
Definition shownNumbers (n : Node) : list Z :=
  flat_map (fun d => match d with
                     | Num k => [k]
                     | _ => []
                     end) (descendants n).

(** A tree with every [className] blanked: structure, keys, variants,
    handlers and text stay. *)
Fixpoint skeleton (n : Node) : Node :=
  match n with
  | Elem t p ch =>
      Elem t (mkProps (key p) "" (variant p) (onMouseEnter p) (onMouseLeave p) (onClick p))
        (map skeleton ch)
  | _ => n
  end.

(** A protocol badge with the styling of the page's own protocol. *)
Definition isHighlightedProtocol (n : Node) : bool :=
  String.eqb (tagOf n) "Badge"
  && String.eqb (classOf n) "bg-blue-100 dark:bg-blue-900 border-blue-300".

(** The words of a string, split at [sep]. *)
Fixpoint splitOn (sep : Ascii.ascii) (s : string) : list string :=
  match s with
  | EmptyString => [EmptyString]
  | String ch r =>
      if Ascii.eqb ch sep then EmptyString :: splitOn sep r
      else match splitOn sep r with
           | w :: ws => String ch w :: ws
           | [] => [String ch EmptyString]
           end
  end.

(** The class names listed in a [className]. *)
Definition classTokens (cl : string) : list string :=
  filter (fun w => negb (String.eqb w "")) (splitOn " "%char cl).

Definition digit (ch : Ascii.ascii) : option Z :=
  let n := Z.of_nat (Ascii.nat_of_ascii ch) in
  if (48 <=? n) && (n <=? 57) then Some (n - 48) else None.

Fixpoint parseDigits (acc : Z) (s : string) : option Z :=
  match s with
  | EmptyString => Some acc
  | String ch r =>
      match digit ch with
      | Some d => parseDigits (10 * acc + d) r
      | None => None
      end
  end.

(** A non-empty string of decimal digits, as a number. *)
Definition parseNumber (s : string) : option Z :=
  match s with
  | EmptyString => None
  | _ => parseDigits 0 s
  end.

(** The number [N] of the first class name of the form [prefixN]. *)
Definition tokenNumber (prefix cl : string) : option Z :=
  match filter (String.prefix prefix) (classTokens cl) with
  | w :: _ =>
      parseNumber (String.substring (String.length prefix)
                     (String.length w - String.length prefix) w)
  | [] => None
  end.

(** The [col-span-N] of a grid cell and the [grid-cols-N] of a grid. *)
Definition colSpan (n : Node) : option Z := tokenNumber "col-span-" (classOf n).
Definition gridCols (n : Node) : option Z := tokenNumber "grid-cols-" (classOf n).

(** The width in bits announced by a table entry of the form ["N bits"]. *)
Definition bitWidth (bits : string) : option Z :=
  match splitOn " "%char bits with
  | [n; unit] => if String.eqb unit "bits" then parseNumber n else None
  | _ => None
  end.

(** The field name a diagram cell passes to [setHoveredField]. *)
Definition cellField (n : Node) : option string :=
  match onMouseEnter (propsOf n) with
  | Some (CallSetHoveredField (Some x)) => Some x
  | _ => None
  end.

(** The columns a grid cell takes: its [col-span-N], one column without. *)
Definition spanOf (n : Node) : Z :=
  match colSpan n with
  | Some k => k
  | None => 1
  end.

(** The grids of a tree: the nodes with a [grid-cols-N] class. *)
Definition grids (n : Node) : list Node :=
  select (fun d => match gridCols d with Some _ => true | None => false end) n.

(** The cells of a tree that hover a field. *)
Definition fieldCells (n : Node) : list Node :=
  select (fun d => match cellField d with Some _ => true | None => false end) n.

Definition childrenOf (n : Node) : list Node :=
  match n with
  | Elem _ _ ch => ch
  | _ => []
  end.

Definition Key_eqb (k1 k2 : Key) : bool :=
  match k1, k2 with
  | NoKey, NoKey => true
  | StrKey x, StrKey y => String.eqb x y
  | NumKey x, NumKey y => Z.eqb x y
  | _, _ => false
  end.

Fixpoint distinctKeys (ks : list Key) : bool :=
  match ks with
  | [] => true
  | k :: r => negb (existsb (Key_eqb k) r) && distinctKeys r
  end.

(** Two children of a node carry the same [key]. *)
Definition hasDuplicateKeys (n : Node) : bool :=
  negb (distinctKeys
          (filter (fun k => negb (Key_eqb k NoKey)) (map keyOf (childrenOf n)))).

(** The columns the children of a grid take together. *)
Definition columnsUsed (g : Node) : Z :=
  fold_right Z.add 0 (map spanOf (childrenOf g)).

(** ** The page as a transition system *)

(** The handlers installed while tab [t] is shown in state [s]: those of
    the rendered page and, on the header tab, those of the header
    diagram. *)
Definition installed (a : App) (t : Tab) (s : State) : list Handler :=
  (handlersOf (render (config a) t s)
   ++ match t with
      | HeaderDetail => handlersOf (headerDiagram a)
      | _ => []
      end)%list.

(** One user event: an installed handler runs, or a tab trigger is
    clicked.  Modelled from the spec: the [Tabs] widget is not part of the
    sources; per the spec, selecting a section makes it the active one and
    leaves the rest of the state alone. *)
Inductive step (a : App) : Tab * State -> Tab * State -> Prop :=
| step_event (t : Tab) (s : State) (h : Handler) :
    In h (installed a t s) -> step a (t, s) (t, run h s)
| step_select (t t' : Tab) (s : State) :
    In t' (tabTriggers (config a)) -> step a (t, s) (t', s).

Inductive reachable (a : App) : Tab * State -> Prop :=
| reach_init : reachable a (defaultTab (config a), initialState a)
| reach_step (p q : Tab * State) : reachable a p -> step a p q -> reachable a q.

(** The handlers of a sequence of events, run in order. *)
Definition runAll (hs : list Handler) (s : State) : State :=
  fold_left (fun st h => run h st) hs s.

(** The number of theme clicks in a sequence of events. *)
Definition themeClicks (hs : list Handler) : nat :=
  length (filter (fun h => match h with CallToggleTheme => true | _ => false end) hs).

(** The argument of the last [setHoveredField] of a sequence, if any. *)
Definition lastFieldCall (hs : list Handler) : option (option string) :=
  fold_left (fun acc h => match h with
                          | CallSetHoveredField v => Some v
                          | _ => acc
                          end) hs None.

(** The argument of the last [setHoveredLayer] of a sequence, if any. *)
Definition lastLayerCall (hs : list Handler) : option (option Z) :=
  fold_left (fun acc h => match h with
                          | CallSetHoveredLayer v => Some v
                          | _ => acc
                          end) hs None.

(** The two handlers of a layer row ([onMouseEnter], [onMouseLeave]) and
    of a diagram cell. *)
Definition rowHandlers (l : OSILayer.t) : list Handler :=
  [ CallSetHoveredLayer (Some (OSILayer.number l)); CallSetHoveredLayer None ].

Definition cellHandlers (name : string) : list Handler :=
  [ CallSetHoveredField (Some name); CallSetHoveredField None ].

(** What the user events keep true of the state. *)
Definition wellFormed (a : App) (p : Tab * State) : Prop :=
  In (fst p) (tabTriggers (config a))
  /\ (hoveredField (snd p) = None
      \/ exists f, In f (fields (config a))
                   /\ hoveredField (snd p) = Some (IPField.name f))
  /\ (hoveredLayer (snd p) = None
      \/ exists l, In l (layers (config a))
                   /\ hoveredLayer (snd p) = Some (OSILayer.number l)).

(** * Properties *)

(** ** State updates *)

Lemma run_toggle (s : State) : run CallToggleTheme s = toggleTheme s.
Proof. reflexivity. Qed.

(** The header diagram passes exactly the names of the dataset, in table
    order, and every tab list starts on its first tab. *)
Lemma diagram_names (a : App) :
  diagram (config a) = fieldNames (config a)
  /\ map fst (diagramHandlers (config a))
     = map (fun n => CallSetHoveredField (Some n)) (fieldNames (config a))
  /\ defaultTab (config a) = (if singlePanel (config a) then HeaderDetail else Story).
Proof. destruct a; repeat split. Qed.

(** C8: [toggleTheme] flips [isDarkMode]; applied twice it gives back the
    starting state, so [isDarkMode] returns to its original value. *)
Theorem C8_toggleTheme_involution :
  forall s : State,
    isDarkMode (toggleTheme s) = negb (isDarkMode s)
    /\ isDarkMode (toggleTheme (toggleTheme s)) = isDarkMode s
    /\ toggleTheme (toggleTheme s) = s.
Proof.
  intros [d f l]. unfold toggleTheme, setIsDarkMode. cbn.
  rewrite negb_involutive. repeat split.
Qed.

(** C9: [setHoveredField] stores its argument as it is, whatever the
    string: the update never looks at a dataset, and a name outside every
    dataset is stored like any other. *)
Theorem C9_setHoveredField_verbatim :
  (forall (x : string) (s : State),
      hoveredField (setHoveredField (Some x) s) = Some x
      /\ hoveredField (run (CallSetHoveredField (Some x)) s) = Some x)
  /\ (forall a : App,
         ~ In "Checksum" (fieldNames (config a))
         /\ hoveredField (setHoveredField (Some "Checksum") (initialState a))
            = Some "Checksum").
Proof.
  split.
  - intros x s. split; reflexivity.
  - intros a. split; [| reflexivity].
    destruct a; cbn; intros H;
      repeat (destruct H as [H | H]; [discriminate H |]); exact H.
Qed.

(** C10: each update changes its own cell only. *)
Theorem C10_updates_frame :
  forall s : State,
    (hoveredField (toggleTheme s) = hoveredField s
     /\ hoveredLayer (toggleTheme s) = hoveredLayer s)
    /\ (forall v, isDarkMode (setHoveredField v s) = isDarkMode s
                  /\ hoveredLayer (setHoveredField v s) = hoveredLayer s)
    /\ (forall v, isDarkMode (setHoveredLayer v s) = isDarkMode s
                  /\ hoveredField (setHoveredLayer v s) = hoveredField s).
Proof.
  intros s. repeat split.
Qed.

(** ** The OSI tables *)

Lemma layerNumbers_descending (a : App) : layerNumbers (config a) = descending.
Proof. destruct a; reflexivity. Qed.

Lemma focus_layers (a : App) :
  map OSILayer.number (filter isFocus (layers (config a))) = [3].
Proof. destruct a; reflexivity. Qed.

Section Orderings.

Variable c : Config.

Lemma sending_is_reverse : sendingLayers c = rev (receivingLayers c).
Proof. reflexivity. Qed.

Lemma sending_permutation : Permutation (sendingLayers c) (layers c).
Proof.
  unfold sendingLayers, JS.reverse, JS.slice.
  apply Permutation_sym, Permutation_rev.
Qed.

Lemma receiving_permutation : Permutation (receivingLayers c) (layers c).
Proof. apply Permutation_refl. Qed.

(** Reversing a list leaves a one-element selection unchanged. *)
Lemma focus_of_sending (x : OSILayer.t) :
  filter isFocus (layers c) = [x] ->
  filter isFocus (sendingLayers c) = [x].
Proof.
  intros H. unfold sendingLayers, JS.reverse, JS.slice.
  rewrite filter_rev, H. reflexivity.
Qed.

End Orderings.

(** C2: what the integration tab renders.  Both lists are re-orderings of
    [osiLayers] and the IP layer carries "Header Added" in the sending list
    and "Header Processed" in the receiving list; but the list under the
    heading "Sending (Top to Bottom)" runs from layer 1 up to layer 7 and
    the list under "Receiving (Bottom to Top)" runs from layer 7 down to
    layer 1, the opposite of what the headings announce. *)
Theorem C2_integration_lists_as_rendered :
  forall (a : App) (s : State),
    let c := config a in
    (sendingHeading = "Sending (Top to Bottom)"
     /\ map keyOf (sendingList c) = map NumKey ascending
     /\ map OSILayer.number (sendingLayers c) = ascending
     /\ map OSILayer.number (sendingLayers c) <> descending)
    /\ (receivingHeading = "Receiving (Bottom to Top)"
        /\ map keyOf (receivingList c) = map NumKey descending
        /\ map OSILayer.number (receivingLayers c) = descending
        /\ map OSILayer.number (receivingLayers c) <> ascending)
    /\ numKeys (render c Integration s) = (ascending ++ descending)%list
    /\ (Permutation (sendingLayers c) (layers c)
        /\ Permutation (receivingLayers c) (layers c))
    /\ (map shownText (sendingList c)
          = map (fun l => OSILayer.name l
                          :: (if isFocus l then [("← " ++ proto c ++ " Header Added")%string] else []))
                (sendingLayers c)
        /\ map shownText (receivingList c)
           = map (fun l => OSILayer.name l
                           :: (if isFocus l then [("← " ++ proto c ++ " Header Processed")%string] else []))
                 (receivingLayers c)).
Proof.
  intros a s c. subst c.
  split; [| split; [| split; [| split]]].
  - destruct a; repeat split; discriminate.
  - destruct a; repeat split; discriminate.
  - destruct a, s as [[] f h]; reflexivity.
  - split; [apply sending_permutation | apply receiving_permutation].
  - destruct a; split; reflexivity.
Qed.

(** C4, as the tables have it: in every component the layer numbered 3 has
    the flag set and lists "IPv4"; it lists "ICMP" in the IPv4 components
    and "ICMPv6", not "ICMP", in the IPv6 components. *)
Theorem C4_layer3_focus_and_protocols :
  forall (a : App) (l : OSILayer.t),
    In l (layers (config a)) ->
    OSILayer.number l = 3 ->
    OSILayer.isIPLayer l = Some true
    /\ In "IPv4" (OSILayer.protocols l)
    /\ (if String.eqb (proto (config a)) "IPv4"
        then In "ICMP" (OSILayer.protocols l)
        else In "ICMPv6" (OSILayer.protocols l) /\ ~ In "ICMP" (OSILayer.protocols l)).
Proof.
  intros a l Hin H3.
  destruct a; cbn in Hin;
    repeat (destruct Hin as [<- | Hin]; [try discriminate H3 |]);
    try contradiction; cbn; intuition discriminate.
Qed.

Lemma C4_layer3_focus_and_protocols_witness :
  let l := OSILayer.mk 3 "Network Layer" "Routing, logical addressing"
             ["IPv6"; "IPv4"; "ICMPv6"; "OSPF"] (Some true) in
  In l (layers (config Page_IPv6App))
  /\ OSILayer.number l = 3
  /\ OSILayer.isIPLayer l = Some true
  /\ In "IPv4" (OSILayer.protocols l)
  /\ In "ICMPv6" (OSILayer.protocols l)
  /\ ~ In "ICMP" (OSILayer.protocols l).
Proof.
  intros l.
  assert (Hin : In l (layers (config Page_IPv6App))).
  { cbn. do 4 right. left. reflexivity. }
  assert (H3 : OSILayer.number l = 3) by reflexivity.
  split; [exact Hin | split; [exact H3 |]].
  pose proof (C4_layer3_focus_and_protocols Page_IPv6App l Hin H3) as H.
  change (String.eqb (proto (config Page_IPv6App)) "IPv4") with false in H.
  cbv iota in H. tauto.
Defined.

(** C4 fails as stated: layer 3 of the table in [src/app/page.tsx] does not
    list "ICMP". *)
Lemma C4_counterexample :
  ~ (forall (a : App) (l : OSILayer.t),
        In l (layers (config a)) ->
        OSILayer.number l = 3 ->
        OSILayer.isIPLayer l = Some true
        /\ In "IPv4" (OSILayer.protocols l)
        /\ In "ICMP" (OSILayer.protocols l)).
Proof.
  intros H.
  specialize (H Page_IPv6App
                (OSILayer.mk 3 "Network Layer" "Routing, logical addressing"
                   ["IPv6"; "IPv4"; "ICMPv6"; "OSPF"] (Some true))).
  destruct H as (_ & _ & Hicmp).
  - cbn. do 4 right. left. reflexivity.
  - reflexivity.
  - cbn in Hicmp.
    repeat (destruct Hicmp as [Hicmp | Hicmp]; [discriminate Hicmp |]).
    exact Hicmp.
Qed.

(** C5: each table has seven layers numbered 1 to 7, exactly one of them
    flagged; the sending and the receiving list of the integration tab
    select the same flagged layer, at position 2 of one and position 4 of
    the other, and it is the only annotated row of either list. *)
Theorem C5_single_focus_layer :
  forall a : App,
    let c := config a in
    length (layers c) = 7%nat
    /\ Permutation (layerNumbers c) ascending
    /\ (exists x : OSILayer.t,
           filter isFocus (layers c) = [x]
           /\ filter isFocus (sendingLayers c) = [x]
           /\ filter isFocus (receivingLayers c) = [x]
           /\ nth_error (sendingLayers c) 2 = Some x
           /\ nth_error (receivingLayers c) 4 = Some x)
    /\ Permutation (sendingLayers c) (receivingLayers c)
    /\ map keyOf (filter isAnnotatedRow (sendingList c)) = [NumKey 3]
    /\ map keyOf (filter isAnnotatedRow (receivingList c)) = [NumKey 3].
Proof.
  intros a c. subst c.
  split; [destruct a; reflexivity |].
  split.
  { rewrite layerNumbers_descending.
    change descending with (rev ascending).
    apply Permutation_sym, Permutation_rev. }
  split.
  { assert (H : exists x, filter isFocus (layers (config a)) = [x]
                          /\ nth_error (sendingLayers (config a)) 2 = Some x
                          /\ nth_error (receivingLayers (config a)) 4 = Some x).
    { destruct a; eexists; repeat split. }
    destruct H as (x & Hx & H2 & H4).
    exists x. repeat split; try assumption.
    apply focus_of_sending, Hx. }
  split; [apply sending_permutation |].
  destruct a; split; reflexivity.
Qed.

(** ** OSI Model tab *)

Lemma layerClass_focus_distinct (h1 h2 : bool) :
  layerClass true h1 <> layerClass false h2.
Proof. destruct h1, h2; discriminate. Qed.

Section LayerRows.

Variable c : Config.

Lemma osiLayerRow_class (s : State) (l : OSILayer.t) :
  classOf (osiLayerRow c s l)
  = layerClass (isFocus l) (JS.strictEqNum (hoveredLayer s) (OSILayer.number l)).
Proof. reflexivity. Qed.

Lemma osiLayerRow_focus_style (s : State) (l : OSILayer.t) :
  hasFocusStyle (osiLayerRow c s l) = isFocus l.
Proof.
  unfold hasFocusStyle. rewrite osiLayerRow_class.
  destruct (isFocus l), (JS.strictEqNum (hoveredLayer s) (OSILayer.number l));
    reflexivity.
Qed.

Lemma osiLayerRow_emphasis (s : State) (l : OSILayer.t) :
  isEmphasizedRow (osiLayerRow c s l)
  = JS.strictEqNum (hoveredLayer s) (OSILayer.number l).
Proof.
  unfold isEmphasizedRow. rewrite osiLayerRow_class.
  destruct (isFocus l), (JS.strictEqNum (hoveredLayer s) (OSILayer.number l));
    reflexivity.
Qed.

End LayerRows.

(** C6: whatever the state, the OSI Model tab shows the rows of layers 7
    down to 1 in that order; the row of layer 3, and no other, has the
    focus styling and shows the "IPv4 Layer" / "IPv6 Layer" badge; and the
    class of the focus row differs from the class of every other row under
    any two hover states. *)
Theorem C6_osi_model_fixed_order_and_focus :
  forall (a : App) (s : State),
    let c := config a in
    numKeys (render c OsiModel s) = descending
    /\ map keyOf (osiLayerList c s) = map NumKey descending
    /\ map hasFocusStyle (osiLayerList c s)
       = map (fun n => Z.eqb n 3) descending
    /\ map (fun row => existsb (String.eqb (proto c ++ " Layer")) (shownText row))
           (osiLayerList c s)
       = map (fun n => Z.eqb n 3) descending
    /\ (forall (s1 s2 : State) (l1 l2 : OSILayer.t),
           isFocus l1 = true -> isFocus l2 = false ->
           classOf (osiLayerRow c s1 l1) <> classOf (osiLayerRow c s2 l2)).
Proof.
  intros a s c. subst c.
  split; [destruct a, s as [[] f h]; reflexivity |].
  split; [destruct a; reflexivity |].
  split.
  { unfold osiLayerList. rewrite map_map.
    erewrite map_ext by (intros l; apply osiLayerRow_focus_style).
    destruct a; reflexivity. }
  split; [destruct a; reflexivity |].
  intros s1 s2 l1 l2 H1 H2.
  rewrite !osiLayerRow_class, H1, H2.
  apply layerClass_focus_distinct.
Qed.

Lemma C6_osi_model_fixed_order_and_focus_witness :
  let c := config Part000_IPv4App in
  let l3 := OSILayer.mk 3 "Network Layer" "Routing, logical addressing"
              ["IPv4"; "IPv6"; "ICMP"; "OSPF"] (Some true) in
  let l4 := OSILayer.mk 4 "Transport Layer" "Reliable data transfer, error recovery"
              ["TCP"; "UDP"; "SCTP"] None in
  isFocus l3 = true /\ isFocus l4 = false
  /\ classOf (osiLayerRow c (mkState false None (Some 4)) l3)
     <> classOf (osiLayerRow c (mkState false None (Some 4)) l4).
Proof.
  intros c l3 l4.
  split; [reflexivity | split; [reflexivity |]].
  apply (C6_osi_model_fixed_order_and_focus Part000_IPv4App (mkState false None None));
    reflexivity.
Defined.

(** ** Integration tab *)

(** C7: the page showing the integration tab is the same for any two
    states that differ in [hoveredField] only; it contains no field card
    and no node with the highlighted class. *)
Theorem C7_integration_ignores_hoveredField :
  forall (a : App) (s1 s2 : State),
    isDarkMode s1 = isDarkMode s2 ->
    hoveredLayer s1 = hoveredLayer s2 ->
    render (config a) Integration s1 = render (config a) Integration s2
    /\ select isFieldCard (render (config a) Integration s1) = []
    /\ select isHighlightedCard (render (config a) Integration s1) = [].
Proof.
  intros a s1 s2 Hd _.
  split.
  - unfold render, rootClass, themeButton. cbn [tabsContent].
    rewrite Hd. reflexivity.
  - destruct a, s1 as [[] f h]; split; reflexivity.
Qed.

Lemma C7_integration_ignores_hoveredField_witness :
  let s1 := mkState true (Some "Hop Limit") None in
  let s2 := mkState true None None in
  isDarkMode s1 = isDarkMode s2
  /\ hoveredLayer s1 = hoveredLayer s2
  /\ render (config Page_IPv6App) Integration s1
     = render (config Page_IPv6App) Integration s2
  /\ select isFieldCard (render (config Page_IPv6App) Integration s1) = []
  /\ select isHighlightedCard (render (config Page_IPv6App) Integration s1) = [].
Proof.
  intros s1 s2.
  split; [reflexivity | split; [reflexivity |]].
  apply (C7_integration_ignores_hoveredField Page_IPv6App s1 s2); reflexivity.
Defined.

(** By contrast the header tab does read [hoveredField]. *)
Lemma header_tab_reads_hoveredField :
  render (config Page_IPv6App) HeaderDetail (mkState true (Some "Hop Limit") None)
  <> render (config Page_IPv6App) HeaderDetail (mkState true None None).
Proof. discriminate. Qed.

(** ** Header tab *)

Lemma filter_flat_map {A B : Type} (p : B -> bool) (g : A -> list B) (l : list A) :
  filter p (flat_map g l) = flat_map (fun x => filter p (g x)) l.
Proof.
  induction l as [| x l IH]; cbn.
  - reflexivity.
  - rewrite filter_app, IH. reflexivity.
Qed.

Lemma select_Elem (p : Node -> bool) (tag : string) (pr : Props) (ch : list Node) :
  select p (Elem tag pr ch)
  = ((if p (Elem tag pr ch) then [Elem tag pr ch] else []) ++ flat_map (select p) ch)%list.
Proof.
  unfold select. cbn [descendants filter].
  rewrite filter_flat_map.
  destruct (p (Elem tag pr ch)); reflexivity.
Qed.

(** A wrapper that fails the test contributes what its children do. *)
Lemma select_wrapper (p : Node -> bool) (tag : string) (pr : Props) (ch : list Node) :
  p (Elem tag pr ch) = false ->
  select p (Elem tag pr ch) = flat_map (select p) ch.
Proof. intros H. rewrite select_Elem, H. reflexivity. Qed.

Lemma select_Static (p : Node -> bool) (w : string) :
  p (Static w) = false -> select p (Static w) = [].
Proof. intros H. unfold select. cbn. rewrite H. reflexivity. Qed.

Ltac through_wrappers :=
  repeat first
    [ rewrite select_wrapper by reflexivity
    | rewrite select_Static by reflexivity
    | progress cbn [flat_map app] ].

(** Among the elements of a list with pairwise different keys, at most one
    has a given key. *)
Lemma filter_key_le_1 {A : Type} (g : A -> string) (x : string) (l : list A) :
  NoDup (map g l) ->
  (length (filter (fun a => String.eqb x (g a)) l) <= 1)%nat.
Proof.
  induction l as [| a l IH]; cbn; intros Hnd.
  - lia.
  - inversion Hnd as [| ? ? Hnotin Hnd']; subst.
    destruct (String.eqb x (g a)) eqn:E.
    + apply String.eqb_eq in E. subst x.
      assert (Hnil : filter (fun a0 => String.eqb (g a) (g a0)) l = []).
      { destruct (filter (fun a0 => String.eqb (g a) (g a0)) l) as [| b r] eqn:F.
        - reflexivity.
        - exfalso. apply Hnotin.
          assert (Hb : In b (filter (fun a0 => String.eqb (g a) (g a0)) l))
            by (rewrite F; left; reflexivity).
          apply filter_In in Hb. destruct Hb as [Hb E].
          apply String.eqb_eq in E. rewrite E. apply in_map, Hb. }
      rewrite Hnil. cbn. lia.
    + apply IH, Hnd'.
Qed.

Lemma filter_key_present {A : Type} (g : A -> string) (x : string) (l : list A) :
  In x (map g l) ->
  (1 <= length (filter (fun a => String.eqb x (g a)) l))%nat.
Proof.
  induction l as [| a l IH]; cbn; intros Hin.
  - contradiction.
  - destruct (String.eqb x (g a)) eqn:E.
    + cbn. lia.
    + destruct Hin as [Heq | Hin].
      * subst x. rewrite String.eqb_refl in E. discriminate E.
      * apply IH, Hin.
Qed.

Lemma filter_key_absent {A : Type} (g : A -> string) (x : string) (l : list A) :
  ~ In x (map g l) ->
  filter (fun a => String.eqb x (g a)) l = [].
Proof.
  induction l as [| a l IH]; cbn; intros Hnotin.
  - reflexivity.
  - destruct (String.eqb x (g a)) eqn:E.
    + apply String.eqb_eq in E. exfalso. apply Hnotin. left. symmetry. exact E.
    + apply IH. intros H. apply Hnotin. right. exact H.
Qed.

Lemma find_key_absent {A : Type} (g : A -> string) (x : string) (l : list A) :
  ~ In x (map g l) ->
  JS.find (fun a => String.eqb x (g a)) l = None.
Proof.
  induction l as [| a l IH]; cbn; intros Hnotin.
  - reflexivity.
  - destruct (String.eqb x (g a)) eqn:E.
    + apply String.eqb_eq in E. exfalso. apply Hnotin. left. symmetry. exact E.
    + apply IH. intros H. apply Hnotin. right. exact H.
Qed.

Lemma find_key_present {A : Type} (g : A -> string) (x : string) (l : list A) :
  In x (map g l) ->
  exists a, JS.find (fun a => String.eqb x (g a)) l = Some a /\ In a l /\ g a = x.
Proof.
  induction l as [| a l IH]; cbn; intros Hin.
  - contradiction.
  - destruct (String.eqb x (g a)) eqn:E.
    + apply String.eqb_eq in E. exists a. auto.
    + destruct Hin as [Heq | Hin].
      * subst x. rewrite String.eqb_refl in E. discriminate E.
      * destruct (IH Hin) as (b & Hf & Hb & Hg). exists b. auto.
Qed.

Lemma fieldNames_NoDup (a : App) : NoDup (fieldNames (config a)).
Proof.
  assert (H : nodup string_dec (fieldNames (config a)) = fieldNames (config a))
    by (destruct a; vm_compute; reflexivity).
  rewrite <- H. apply NoDup_nodup.
Qed.

Lemma fieldNames_nonempty (a : App) : ~ In "" (fieldNames (config a)).
Proof.
  destruct a; cbn; intros H;
    repeat (destruct H as [H | H]; [discriminate H |]); exact H.
Qed.

Section FieldCards.

Variable c : Config.

Lemma fieldCard_class (s : State) (f : IPField.t) :
  classOf (fieldCard s f)
  = cardClass (JS.strictEqStr (hoveredField s) (IPField.name f)).
Proof. reflexivity. Qed.

Lemma fieldCard_highlighted (s : State) (f : IPField.t) :
  isHighlightedCard (fieldCard s f)
  = JS.strictEqStr (hoveredField s) (IPField.name f).
Proof.
  unfold isHighlightedCard. rewrite fieldCard_class.
  destruct (JS.strictEqStr (hoveredField s) (IPField.name f)); reflexivity.
Qed.

Lemma highlighted_cards (s : State) :
  filter isHighlightedCard (fieldExplanations c s)
  = map (fieldCard s)
      (filter (fun f => JS.strictEqStr (hoveredField s) (IPField.name f)) (fields c)).
Proof.
  unfold fieldExplanations.
  induction (fields c) as [| f l IH]; cbn [map filter].
  - reflexivity.
  - rewrite fieldCard_highlighted.
    destruct (JS.strictEqStr (hoveredField s) (IPField.name f)); cbn [map];
      rewrite IH; reflexivity.
Qed.

(** Nothing inside a field card is itself highlighted or a field card. *)
Lemma select_highlighted_fieldCard (s : State) (f : IPField.t) :
  select isHighlightedCard (fieldCard s f)
  = if isHighlightedCard (fieldCard s f) then [fieldCard s f] else [].
Proof.
  rewrite fieldCard_highlighted.
  unfold select, fieldCard, exampleBox.
  destruct (JS.strictEqStr (hoveredField s) (IPField.name f));
    destruct (IPField.example f) as [e |];
    try destruct (String.eqb e ""); reflexivity.
Qed.

Lemma select_fieldCard_fieldCard (s : State) (f : IPField.t) :
  select isFieldCard (fieldCard s f) = [fieldCard s f].
Proof.
  unfold select, fieldCard, exampleBox.
  destruct (IPField.example f) as [e |];
    try destruct (String.eqb e ""); reflexivity.
Qed.

Lemma select_highlighted_cards (s : State) :
  flat_map (select isHighlightedCard) (fieldExplanations c s)
  = filter isHighlightedCard (fieldExplanations c s).
Proof.
  unfold fieldExplanations.
  induction (fields c) as [| f l IH]; cbn [map flat_map filter].
  - reflexivity.
  - rewrite select_highlighted_fieldCard, IH.
    destruct (isHighlightedCard (fieldCard s f)); reflexivity.
Qed.

Lemma select_fieldCard_cards (s : State) :
  flat_map (select isFieldCard) (fieldExplanations c s) = fieldExplanations c s.
Proof.
  unfold fieldExplanations.
  induction (fields c) as [| f l IH]; cbn [map flat_map].
  - reflexivity.
  - rewrite select_fieldCard_fieldCard, IH. reflexivity.
Qed.

Hypothesis list_style : singlePanel c = false.

(** In a list-style component the field cards of the rendered page are the
    cards of [fieldExplanations], and the highlighted nodes of the page are
    the highlighted ones among them. *)
Lemma fieldCards_of_header_page (s : State) :
  select isFieldCard (render c HeaderDetail s) = fieldExplanations c s.
Proof.
  unfold render, themeButton, tabsContent, headerTab, tabCard.
  rewrite list_style.
  destruct (isDarkMode s); through_wrappers;
    rewrite select_fieldCard_cards, !app_nil_r; reflexivity.
Qed.

Lemma highlighted_of_header_page (s : State) :
  select isHighlightedCard (render c HeaderDetail s)
  = filter isHighlightedCard (fieldExplanations c s).
Proof.
  unfold render, themeButton, tabsContent, headerTab, tabCard.
  rewrite list_style.
  destruct (isDarkMode s); through_wrappers;
    rewrite select_highlighted_cards, !app_nil_r; reflexivity.
Qed.

End FieldCards.

(** C1: after [setHoveredField(x)] with [x] a field name of the dataset,
    exactly the card of [x] is highlighted and every other card has the
    normal class; in any state at most one card is highlighted.  In the
    list-style components the highlighted nodes of the whole rendered page
    are that one card; the single-panel component shows the details of [x]
    in its panel instead. *)
Theorem C1_exactly_hovered_card_highlighted :
  forall (a : App) (s : State) (x : string),
    In x (fieldNames (config a)) ->
    let c := config a in
    let s' := setHoveredField (Some x) s in
    (forall f, In f (fields c) ->
       classOf (fieldCard s' f) = cardClass (String.eqb x (IPField.name f)))
    /\ (exists f,
           In f (fields c) /\ IPField.name f = x
           /\ filter isHighlightedCard (fieldExplanations c s') = [fieldCard s' f]
           /\ (singlePanel c = false ->
               select isFieldCard (render c HeaderDetail s') = fieldExplanations c s'
               /\ select isHighlightedCard (render c HeaderDetail s') = [fieldCard s' f])
           /\ (singlePanel c = true ->
               fieldDetails c s' = detailPanel (fieldDetail f)))
    /\ (forall s0 : State,
          (length (filter isHighlightedCard (fieldExplanations c s0)) <= 1)%nat).
Proof.
  intros a s x Hin c s'.
  split; [intros f _; reflexivity |].
  split.
  { pose proof (filter_key_le_1 IPField.name x (fields c) (fieldNames_NoDup a)) as Hle.
    pose proof (filter_key_present IPField.name x (fields c) Hin) as Hge.
    destruct (filter (fun f => String.eqb x (IPField.name f)) (fields c))
      as [| f [| g r]] eqn:F; cbn in Hle, Hge; try lia.
    assert (Hf : In f (filter (fun f => String.eqb x (IPField.name f)) (fields c)))
      by (rewrite F; left; reflexivity).
    apply filter_In in Hf. destruct Hf as [Hf E].
    apply String.eqb_eq in E.
    assert (Hcards : filter isHighlightedCard (fieldExplanations c s') = [fieldCard s' f]).
    { rewrite highlighted_cards. cbn [s' setHoveredField hoveredField JS.strictEqStr].
      rewrite F. reflexivity. }
    exists f. split; [exact Hf |]. split; [symmetry; exact E |].
    split; [exact Hcards |]. split.
    - intros Hlist. split.
      + apply fieldCards_of_header_page, Hlist.
      + rewrite highlighted_of_header_page by exact Hlist. exact Hcards.
    - intros _. unfold fieldDetails, fieldDetailContent.
      cbn [s' setHoveredField hoveredField JS.strictEqStr JS.truthyStr].
      destruct (String.eqb x "") eqn:Ex.
      + apply String.eqb_eq in Ex. rewrite Ex in Hin. exfalso.
        exact (fieldNames_nonempty a Hin).
      + cbn [negb].
        destruct (find_key_present IPField.name x (fields c) Hin) as (f' & Hfind & Hf' & Hn).
        rewrite Hfind. unfold detailPanel. do 4 f_equal.
        assert (Hin' : In f' (filter (fun f => String.eqb x (IPField.name f)) (fields c))).
        { apply filter_In. split; [exact Hf' |]. rewrite Hn. apply String.eqb_refl. }
        rewrite F in Hin'. destruct Hin' as [-> | []]. reflexivity. }
  intros s0. rewrite highlighted_cards, length_map.
  destruct (hoveredField s0) as [y |]; cbn [JS.strictEqStr].
  - apply filter_key_le_1, fieldNames_NoDup.
  - induction (fields c) as [| f l IH]; cbn; [lia | exact IH].
Qed.

Lemma C1_exactly_hovered_card_highlighted_witness :
  let c := config Part000_IPv4App in
  let s' := setHoveredField (Some "Time to Live") (initialState Part000_IPv4App) in
  In "Time to Live" (fieldNames c)
  /\ map (fun n => (keyOf n, isHighlightedCard n)) (fieldExplanations c s')
     = map (fun f => (StrKey (IPField.name f), String.eqb "Time to Live" (IPField.name f)))
         (fields c)
  /\ map keyOf (select isHighlightedCard (render c HeaderDetail s'))
     = [StrKey "Time to Live"]
  /\ (length (filter isHighlightedCard (fieldExplanations c s')) <= 1)%nat.
Proof.
  intros c s'.
  assert (Hin : In "Time to Live" (fieldNames c)).
  { cbn. do 7 right. left. reflexivity. }
  split; [exact Hin |].
  split; [reflexivity |].
  split; [reflexivity |].
  apply (C1_exactly_hovered_card_highlighted Part000_IPv4App
           (initialState Part000_IPv4App) "Time to Live" Hin).
Defined.

Lemma no_hover_no_emphasis (c : Config) (s : State) :
  hoveredLayer s = None ->
  filter isEmphasizedRow (osiLayerList c s) = [].
Proof.
  intros Hnone. unfold osiLayerList.
  induction (layers c) as [| l r IH]; cbn [map filter]; [reflexivity |].
  rewrite osiLayerRow_emphasis, Hnone. exact IH.
Qed.

(** With nothing hovered no node of a rendered page is highlighted or
    emphasised. *)
Lemma nothing_hovered_page (a : App) (t : Tab) (d : bool) :
  select isHighlightedCard (render (config a) t (mkState d None None)) = []
  /\ select isEmphasizedRow (render (config a) t (mkState d None None)) = [].
Proof. destruct a, t, d; split; reflexivity. Qed.

(** C3: hovering an identifier that is in no row of the dataset.  For a
    field name: the cards are those rendered with nothing hovered, none is
    highlighted, the lookup of the detail panel yields [null], the panel
    shows no text and no node of the rendered header tab is highlighted.
    For a layer number: the OSI Model tab is rendered as with nothing
    hovered and none of its nodes is emphasised.  The views are total
    functions, so there is no state in which rendering fails. *)
Theorem C3_unknown_identifier_shows_nothing :
  forall (a : App) (s : State) (x : string) (n : Z),
    ~ In x (fieldNames (config a)) ->
    ~ In n (layerNumbers (config a)) ->
    let c := config a in
    let sf := setHoveredField (Some x) s in
    let sl := setHoveredLayer (Some n) s in
    (fieldExplanations c sf = fieldExplanations c (setHoveredField None s)
     /\ filter isHighlightedCard (fieldExplanations c sf) = []
     /\ JS.find (fun f => JS.strictEqStr (hoveredField sf) (IPField.name f)) (fields c) = None
     /\ fieldDetailContent c sf = Null
     /\ shownText (fieldDetails c sf) = []
     /\ select isHighlightedCard (render c HeaderDetail sf) = [])
    /\ (render c OsiModel sl = render c OsiModel (setHoveredLayer None s)
        /\ filter isEmphasizedRow (osiLayerList c sl) = []
        /\ select isEmphasizedRow (render c OsiModel sl) = []).
Proof.
  intros a s x n Hx Hn c sf sl.
  assert (Hfind : JS.find (fun f => JS.strictEqStr (hoveredField sf) (IPField.name f))
                    (fields c) = None)
    by (apply (find_key_absent IPField.name x (fields c) Hx)).
  assert (Hcontent : fieldDetailContent c sf = Null)
    by (unfold fieldDetailContent; rewrite Hfind; reflexivity).
  assert (Hcards : fieldExplanations c sf = fieldExplanations c (setHoveredField None s)).
  { unfold fieldExplanations. apply map_ext_in. intros f Hf.
    unfold fieldCard. cbn [sf setHoveredField hoveredField JS.strictEqStr].
    destruct (String.eqb x (IPField.name f)) eqn:E; [| reflexivity].
    apply String.eqb_eq in E. exfalso. apply Hx. rewrite E. apply in_map, Hf. }
  assert (Hnone : filter isHighlightedCard (fieldExplanations c sf) = []).
  { rewrite highlighted_cards.
    cbn [sf setHoveredField hoveredField JS.strictEqStr].
    rewrite (filter_key_absent IPField.name x (fields c) Hx). reflexivity. }
  assert (Hrows : osiLayerList c sl = osiLayerList c (setHoveredLayer None s)).
  { unfold osiLayerList. apply map_ext_in. intros l Hl.
    unfold osiLayerRow. cbn [sl setHoveredLayer hoveredLayer JS.strictEqNum].
    destruct (Z.eqb n (OSILayer.number l)) eqn:E; [| reflexivity].
    apply Z.eqb_eq in E. exfalso. apply Hn. rewrite E. apply in_map, Hl. }
  assert (Hpage : render c OsiModel sl = render c OsiModel (setHoveredLayer None s)).
  { unfold render, tabsContent, osiModelTab. rewrite Hrows. reflexivity. }
  split; [split; [| split; [| split; [| split; [| split]]]] | split; [| split]].
  - exact Hcards.
  - exact Hnone.
  - exact Hfind.
  - exact Hcontent.
  - unfold fieldDetails. rewrite Hcontent.
    cbn [sf setHoveredField hoveredField JS.truthyStr].
    destruct (String.eqb x "") eqn:E; cbn [negb].
    + apply String.eqb_eq in E. rewrite E. reflexivity.
    + reflexivity.
  - destruct (singlePanel c) eqn:Hstyle.
    + unfold render, themeButton, rootClass, tabsContent, headerTab, fieldDetails.
      rewrite Hstyle, Hcontent.
      cbn [sf setHoveredField hoveredField isDarkMode JS.truthyStr].
      destruct (isDarkMode s), (String.eqb x "") eqn:E; cbn [negb];
        try (apply String.eqb_eq in E; rewrite E); reflexivity.
    + rewrite highlighted_of_header_page by exact Hstyle. exact Hnone.
  - exact Hpage.
  - rewrite Hrows. apply no_hover_no_emphasis. reflexivity.
  - rewrite Hpage. destruct s as [d f h].
    apply (nothing_hovered_page a OsiModel d).
Qed.

Lemma C3_unknown_identifier_shows_nothing_witness :
  let c := config Part001_IPv4App in
  let sf := setHoveredField (Some "Hop Limit") (initialState Part001_IPv4App) in
  let sl := setHoveredLayer (Some 8) (initialState Part001_IPv4App) in
  ~ In "Hop Limit" (fieldNames c)
  /\ ~ In 8 (layerNumbers c)
  /\ fieldDetailContent c sf = Null
  /\ shownText (fieldDetails c sf) = []
  /\ select isHighlightedCard (render c HeaderDetail sf) = []
  /\ select isEmphasizedRow (render c OsiModel sl) = [].
Proof.
  intros c sf sl.
  assert (Hx : ~ In "Hop Limit" (fieldNames c)).
  { cbn. intros H. repeat (destruct H as [H | H]; [discriminate H |]). exact H. }
  assert (Hn : ~ In 8 (layerNumbers c)).
  { cbn. intros H. repeat (destruct H as [H | H]; [discriminate H |]). exact H. }
  split; [exact Hx | split; [exact Hn |]].
  pose proof (C3_unknown_identifier_shows_nothing Part001_IPv4App
                (initialState Part001_IPv4App) "Hop Limit" 8 Hx Hn) as H.
  cbv zeta in H. tauto.
Defined.

(** In the single-panel component the frame of the detail panel is still
    rendered, empty, for an unknown non-empty name. *)
Lemma unknown_name_empty_panel :
  fieldDetails (config Part001_IPv4App)
    (setHoveredField (Some "Hop Limit") (initialState Part001_IPv4App))
  = detailPanel Null.
Proof. reflexivity. Qed.

(** * Further properties of the components *)

(** ** Sequences of events *)

Lemma runAll_app (hs1 hs2 : list Handler) (s : State) :
  runAll (hs1 ++ hs2) s = runAll hs2 (runAll hs1 s).
Proof. unfold runAll. apply fold_left_app. Qed.

Lemma themeClicks_app (hs1 hs2 : list Handler) :
  themeClicks (hs1 ++ hs2) = (themeClicks hs1 + themeClicks hs2)%nat.
Proof. unfold themeClicks. rewrite filter_app, length_app. reflexivity. Qed.

(** X1: the state after any sequence of events: the theme is flipped when
    the number of theme clicks is odd, and each hover cell holds the
    argument of the last call of its setter, or its old value when there
    was none. *)
Theorem X1_state_after_events :
  forall (hs : list Handler) (s : State),
    isDarkMode (runAll hs s) = xorb (Nat.odd (themeClicks hs)) (isDarkMode s)
    /\ hoveredField (runAll hs s)
       = match lastFieldCall hs with
         | Some v => v
         | None => hoveredField s
         end
    /\ hoveredLayer (runAll hs s)
       = match lastLayerCall hs with
         | Some v => v
         | None => hoveredLayer s
         end.
Proof.
  intros hs. induction hs as [| h hs IH] using rev_ind; intros s.
  - cbn. destruct (isDarkMode s); repeat split.
  - rewrite runAll_app, themeClicks_app.
    unfold lastFieldCall, lastLayerCall. rewrite !fold_left_app.
    fold (lastFieldCall hs). fold (lastLayerCall hs).
    destruct (IH s) as (Hd & Hf & Hl).
    destruct h as [| v | v]; cbn [runAll fold_left run toggleTheme setIsDarkMode
                                   setHoveredField setHoveredLayer isDarkMode
                                   hoveredField hoveredLayer themeClicks filter length].
    + rewrite Hd, Hf, Hl. split; [| split; reflexivity].
      rewrite Nat.add_1_r, Nat.odd_succ, <- Nat.negb_odd.
      destruct (Nat.odd (themeClicks hs)), (isDarkMode s); reflexivity.
    + rewrite Hd, Hl, Nat.add_0_r. repeat split.
    + rewrite Hd, Hf, Nat.add_0_r. repeat split.
Qed.

(** ** Walking a rendered tree *)

Lemma select_Num (p : Node -> bool) (k : Z) :
  p (Num k) = false -> select p (Num k) = [].
Proof. intros H. unfold select. cbn. rewrite H. reflexivity. Qed.

Lemma select_Text (p : Node -> bool) (t : string) :
  p (Text t) = false -> select p (Text t) = [].
Proof. intros H. unfold select. cbn. rewrite H. reflexivity. Qed.

Lemma select_Null (p : Node -> bool) :
  p Null = false -> select p Null = [].
Proof. intros H. unfold select. cbn. rewrite H. reflexivity. Qed.

Ltac through_tree :=
  repeat first
    [ rewrite select_wrapper by reflexivity
    | rewrite select_Static by reflexivity
    | rewrite select_Num by reflexivity
    | rewrite select_Text by reflexivity
    | rewrite select_Null by reflexivity
    | progress cbn [flat_map app] ].

(** Selecting by key in a list whose keys are pairwise different. *)
Section UniqueKeys.

Variables (A K : Type) (eqb : K -> K -> bool) (g : A -> K).
Hypothesis eqb_spec : forall x y, eqb x y = true <-> x = y.

Lemma filter_absent_key (x : K) (l : list A) :
  ~ In x (map g l) -> filter (fun b => eqb x (g b)) l = [].
Proof.
  induction l as [| b l IH]; cbn; intros Hnotin.
  - reflexivity.
  - destruct (eqb x (g b)) eqn:E.
    + apply eqb_spec in E. exfalso. apply Hnotin. left. symmetry. exact E.
    + apply IH. intros H. apply Hnotin. right. exact H.
Qed.

Lemma filter_unique_key (a : A) (l : list A) :
  NoDup (map g l) -> In a l -> filter (fun b => eqb (g a) (g b)) l = [a].
Proof.
  induction l as [| b l IH]; cbn; intros Hnd Hin.
  - contradiction.
  - inversion Hnd as [| ? ? Hnotin Hnd']; subst.
    destruct Hin as [-> | Hin].
    + replace (eqb (g a) (g a)) with true
        by (symmetry; apply eqb_spec; reflexivity).
      rewrite (filter_absent_key (g a) l Hnotin). reflexivity.
    + destruct (eqb (g a) (g b)) eqn:E.
      * apply eqb_spec in E. exfalso. apply Hnotin. rewrite <- E.
        apply in_map, Hin.
      * apply IH; assumption.
Qed.

Lemma filter_key_at_most_one (x : K) (l : list A) :
  NoDup (map g l) -> (length (filter (fun b => eqb x (g b)) l) <= 1)%nat.
Proof.
  intros Hnd.
  destruct (filter (fun b => eqb x (g b)) l) as [| a r] eqn:F; [cbn; lia |].
  assert (Ha : In a (filter (fun b => eqb x (g b)) l)) by (rewrite F; left; reflexivity).
  apply filter_In in Ha. destruct Ha as [Ha E]. apply eqb_spec in E. subst x.
  rewrite (filter_unique_key a l Hnd Ha) in F.
  injection F as <-. cbn. lia.
Qed.

End UniqueKeys.

Lemma layerNumbers_NoDup (a : App) : NoDup (layerNumbers (config a)).
Proof.
  rewrite layerNumbers_descending.
  repeat constructor; cbn; intros H;
    repeat (destruct H as [H | H]; [discriminate H |]); exact H.
Qed.

(** ** Hovering a layer *)

Section LayerHover.

Variable c : Config.

Lemma emphasized_rows (s : State) :
  filter isEmphasizedRow (osiLayerList c s)
  = map (osiLayerRow c s)
      (filter (fun l => JS.strictEqNum (hoveredLayer s) (OSILayer.number l)) (layers c)).
Proof.
  unfold osiLayerList.
  induction (layers c) as [| l r IH]; cbn [map filter].
  - reflexivity.
  - rewrite osiLayerRow_emphasis.
    destruct (JS.strictEqNum (hoveredLayer s) (OSILayer.number l)); cbn [map];
      rewrite IH; reflexivity.
Qed.

Lemma select_emphasized_protocols (ps : list string) :
  flat_map (select isEmphasizedRow) (map (protocolBadge c) ps) = [].
Proof.
  induction ps as [| p ps IH]; cbn [map flat_map]; [reflexivity |].
  rewrite IH, app_nil_r. unfold protocolBadge.
  destruct (String.eqb p (proto c)); reflexivity.
Qed.

Lemma select_emphasized_focusBadge (l : OSILayer.t) :
  select isEmphasizedRow (focusBadge c l) = [].
Proof. unfold focusBadge. destruct (JS.truthyFlag (OSILayer.isIPLayer l)); reflexivity. Qed.

(** Nothing inside a layer row is itself emphasised. *)
Lemma select_emphasized_row (s : State) (l : OSILayer.t) :
  select isEmphasizedRow (osiLayerRow c s l)
  = if isEmphasizedRow (osiLayerRow c s l) then [osiLayerRow c s l] else [].
Proof.
  unfold osiLayerRow at 1. rewrite select_Elem.
  fold (osiLayerRow c s l).
  through_tree.
  rewrite select_emphasized_focusBadge, select_emphasized_protocols, !app_nil_r.
  reflexivity.
Qed.

Lemma select_emphasized_rows (s : State) :
  flat_map (select isEmphasizedRow) (osiLayerList c s)
  = filter isEmphasizedRow (osiLayerList c s).
Proof.
  unfold osiLayerList.
  induction (layers c) as [| l r IH]; cbn [map flat_map filter].
  - reflexivity.
  - rewrite select_emphasized_row, IH.
    destruct (isEmphasizedRow (osiLayerRow c s l)); reflexivity.
Qed.

(** The emphasised nodes of the rendered OSI Model tab are the emphasised
    rows of [osiLayerList]. *)
Lemma emphasized_of_osi_page (s : State) :
  select isEmphasizedRow (render c OsiModel s)
  = filter isEmphasizedRow (osiLayerList c s).
Proof.
  unfold render, themeButton, tabsContent, osiModelTab, tabCard.
  destruct (isDarkMode s); through_tree;
    rewrite select_emphasized_rows, !app_nil_r; reflexivity.
Qed.

End LayerHover.

(** X2: after [setHoveredLayer(n)] with [n] the number of a layer of the
    table, the row of that layer is the one emphasised node of the rendered
    OSI Model tab; in any state at most one node of that tab is
    emphasised. *)
Theorem X2_exactly_hovered_layer_emphasized :
  forall (a : App) (s : State) (l : OSILayer.t),
    In l (layers (config a)) ->
    let c := config a in
    let s' := setHoveredLayer (Some (OSILayer.number l)) s in
    filter isEmphasizedRow (osiLayerList c s') = [osiLayerRow c s' l]
    /\ select isEmphasizedRow (render c OsiModel s') = [osiLayerRow c s' l]
    /\ (forall s0 : State,
          (length (select isEmphasizedRow (render c OsiModel s0)) <= 1)%nat).
Proof.
  intros a s l Hin c s'.
  assert (Hrows : filter isEmphasizedRow (osiLayerList c s') = [osiLayerRow c s' l]).
  { rewrite emphasized_rows.
    cbn [s' setHoveredLayer hoveredLayer JS.strictEqNum].
    rewrite (filter_unique_key _ _ Z.eqb OSILayer.number Z.eqb_eq l (layers c)
               (layerNumbers_NoDup a) Hin).
    reflexivity. }
  split; [exact Hrows |]. split.
  - rewrite emphasized_of_osi_page. exact Hrows.
  - intros s0. rewrite emphasized_of_osi_page, emphasized_rows, length_map.
    destruct (hoveredLayer s0) as [n |]; cbn [JS.strictEqNum].
    + apply (filter_key_at_most_one _ _ Z.eqb OSILayer.number Z.eqb_eq n (layers c)
               (layerNumbers_NoDup a)).
    + induction (layers c) as [| l0 r IH]; cbn; [lia | exact IH].
Qed.

Lemma X2_exactly_hovered_layer_emphasized_witness :
  let l := OSILayer.mk 4 "Transport Layer" "Reliable data transfer, error recovery"
             ["TCP"; "UDP"; "SCTP"] None in
  let c := config Part001_IPv4App in
  let s' := setHoveredLayer (Some 4) (initialState Part001_IPv4App) in
  In l (layers c)
  /\ map keyOf (select isEmphasizedRow (render c OsiModel s')) = [NumKey 4].
Proof.
  intros l c s'.
  assert (Hin : In l (layers c)) by (cbn; do 3 right; left; reflexivity).
  split; [exact Hin |].
  pose proof (X2_exactly_hovered_layer_emphasized Part001_IPv4App
                (initialState Part001_IPv4App) l Hin) as H.
  cbv zeta in H. destruct H as (_ & H & _).
  change (setHoveredLayer (Some (OSILayer.number l)) (initialState Part001_IPv4App))
    with s' in H.
  fold c in H. rewrite H. reflexivity.
Defined.

(** ** Leaving a cell or a row *)

Lemma select_emphasized_fieldDetails (c : Config) (s : State) :
  select isEmphasizedRow (fieldDetails c s) = [].
Proof.
  unfold fieldDetails, fieldDetailContent.
  destruct (JS.truthyStr (hoveredField s)).
  - destruct (JS.find _ (fields c)) as [f |]; [| reflexivity].
    unfold fieldDetail, exampleBox.
    destruct (IPField.example f) as [e |];
      try destruct (String.eqb e ""); reflexivity.
  - destruct (hoveredField s); reflexivity.
Qed.

Lemma select_emphasized_header_panel (c : Config) (s : State) :
  singlePanel c = true ->
  select isEmphasizedRow (render c HeaderDetail s) = [].
Proof.
  intros Hpanel.
  unfold render, themeButton, tabsContent, headerTab, tabCard. rewrite Hpanel.
  destruct (isDarkMode s); through_tree;
    rewrite select_emphasized_fieldDetails; reflexivity.
Qed.

(** X3: once [onMouseLeave] has called [setHoveredField(null)], no node of
    the rendered page is a highlighted card, whatever tab is shown and
    whatever the rest of the state, and the detail panel is not rendered;
    once it has called [setHoveredLayer(null)], no node of the page is an
    emphasised row. *)
Theorem X3_leave_clears_hover :
  forall (a : App) (t : Tab) (s : State),
    let c := config a in
    select isHighlightedCard (render c t (setHoveredField None s)) = []
    /\ fieldDetails c (setHoveredField None s) = Null
    /\ select isEmphasizedRow (render c t (setHoveredLayer None s)) = [].
Proof.
  intros a t s c. subst c.
  split; [| split].
  - destruct a, t, s as [[] f h]; vm_compute; reflexivity.
  - reflexivity.
  - destruct t.
    + destruct a, s as [[] f h]; reflexivity.
    + destruct (singlePanel (config a)) eqn:Hstyle.
      * apply select_emphasized_header_panel, Hstyle.
      * destruct a, s as [[] f h]; try discriminate Hstyle; vm_compute; reflexivity.
    + rewrite emphasized_of_osi_page. apply no_hover_no_emphasis. reflexivity.
    + destruct a, s as [[] f h]; reflexivity.
Qed.

(** ** Installed handlers *)

Lemma flat_map_flat_map {A B C : Type} (f : B -> list C) (g : A -> list B) (l : list A) :
  flat_map f (flat_map g l) = flat_map (fun x => flat_map f (g x)) l.
Proof.
  induction l as [| x l IH]; cbn.
  - reflexivity.
  - rewrite flat_map_app, IH. reflexivity.
Qed.

Lemma handlersOf_Elem (t : string) (p : Props) (ch : list Node) :
  handlersOf (Elem t p ch)
  = (optList (onMouseEnter p) ++ optList (onMouseLeave p) ++ optList (onClick p)
     ++ flat_map handlersOf ch)%list.
Proof.
  unfold handlersOf. cbn [descendants flat_map propsOf].
  rewrite flat_map_flat_map, <- !app_assoc. reflexivity.
Qed.

Lemma handlersOf_fieldDetails (c : Config) (s : State) :
  handlersOf (fieldDetails c s) = [].
Proof.
  unfold fieldDetails, fieldDetailContent.
  destruct (JS.truthyStr (hoveredField s)).
  - destruct (JS.find _ (fields c)) as [f |]; [| reflexivity].
    unfold fieldDetail, exampleBox.
    destruct (IPField.example f) as [e |];
      try destruct (String.eqb e ""); reflexivity.
  - destruct (hoveredField s); reflexivity.
Qed.

Lemma handlersOf_header_panel (c : Config) (s : State) :
  singlePanel c = true ->
  handlersOf (render c HeaderDetail s) = [CallToggleTheme].
Proof.
  intros Hpanel.
  unfold render, themeButton, tabsContent, headerTab, tabCard. rewrite Hpanel.
  repeat (rewrite handlersOf_Elem;
          cbn [optList onMouseEnter onMouseLeave onClick cls noProps app flat_map]).
  rewrite handlersOf_fieldDetails.
  destruct (isDarkMode s); reflexivity.
Qed.

Lemma page_and_diagram_handlers (a : App) (t : Tab) (s : State) :
  handlersOf (render (config a) t s)
  = CallToggleTheme
    :: match t with
       | OsiModel => flat_map rowHandlers (layers (config a))
       | _ => []
       end
  /\ handlersOf (headerDiagram a) = flat_map cellHandlers (fieldNames (config a)).
Proof.
  split; [| destruct a; reflexivity].
  destruct t.
  - destruct a, s as [[] f h]; reflexivity.
  - destruct (singlePanel (config a)) eqn:Hstyle.
    + apply handlersOf_header_panel, Hstyle.
    + destruct a, s as [[] f h]; try discriminate Hstyle; vm_compute; reflexivity.
  - destruct a, s as [[] f h]; vm_compute; reflexivity.
  - destruct a, s as [[] f h]; reflexivity.
Qed.

(** X4: the handlers a rendered page installs are the theme toggle of the
    button and, on the OSI Model tab, one enter / leave pair per layer of
    the table; the header diagram has one cell per field of the table, in
    table order, which calls [setHoveredField] with that field's name on
    enter and with [null] on leave. *)
Theorem X4_installed_handlers :
  forall (a : App) (t : Tab) (s : State),
    handlersOf (render (config a) t s)
    = CallToggleTheme
      :: match t with
         | OsiModel => flat_map rowHandlers (layers (config a))
         | _ => []
         end
    /\ hoverPairs (headerDiagram a)
       = map (fun n => (CallSetHoveredField (Some n), CallSetHoveredField None))
           (fieldNames (config a))
    /\ handlersOf (headerDiagram a) = flat_map cellHandlers (fieldNames (config a)).
Proof.
  intros a t s.
  destruct (page_and_diagram_handlers a t s) as (Hpage & Hdiag).
  split; [exact Hpage |]. split; [destruct a; reflexivity | exact Hdiag].
Qed.

(** ** What the events keep true *)

Lemma installed_cases (a : App) (t : Tab) (s : State) (h : Handler) :
  In h (installed a t s) ->
  h = CallToggleTheme
  \/ h = CallSetHoveredField None
  \/ h = CallSetHoveredLayer None
  \/ (exists f, In f (fields (config a)) /\ h = CallSetHoveredField (Some (IPField.name f)))
  \/ (exists l, In l (layers (config a)) /\ h = CallSetHoveredLayer (Some (OSILayer.number l))).
Proof.
  unfold installed. intros Hin.
  destruct (page_and_diagram_handlers a t s) as (Hpage & Hdiag).
  apply in_app_or in Hin. destruct Hin as [Hin | Hin].
  - rewrite Hpage in Hin. destruct Hin as [<- | Hin]; [auto |].
    destruct t; try contradiction.
    apply in_flat_map in Hin. destruct Hin as (l & Hl & Hin).
    destruct Hin as [<- | [<- | []]]; [| auto].
    do 4 right. exists l. auto.
  - destruct t; try contradiction.
    rewrite Hdiag in Hin.
    apply in_flat_map in Hin. destruct Hin as (n & Hn & Hin).
    destruct Hin as [<- | [<- | []]]; [| auto].
    apply in_map_iff in Hn. destruct Hn as (f & <- & Hf).
    do 3 right. left. exists f. auto.
Qed.

Lemma find_head_filter {A : Type} (p : A -> bool) (l : list A) :
  JS.find p l = hd_error (filter p l).
Proof.
  induction l as [| x l IH]; cbn; [reflexivity |].
  destruct (p x); [reflexivity | exact IH].
Qed.

(** Looking a table entry up by its own name finds that entry. *)
Lemma find_own_name (a : App) (f : IPField.t) :
  In f (fields (config a)) ->
  JS.find (fun g => String.eqb (IPField.name f) (IPField.name g)) (fields (config a))
  = Some f.
Proof.
  intros Hf. rewrite find_head_filter.
  rewrite (filter_unique_key _ _ String.eqb IPField.name String.eqb_eq f
             (fields (config a)) (fieldNames_NoDup a) Hf).
  reflexivity.
Qed.

Lemma run_keeps_wellFormed (a : App) (t : Tab) (s : State) (h : Handler) :
  In h (installed a t s) -> wellFormed a (t, s) -> wellFormed a (t, run h s).
Proof.
  intros Hin (Ht & Hf & Hl). unfold wellFormed. cbn [fst snd] in *.
  destruct (installed_cases a t s h Hin)
    as [-> | [-> | [-> | [(f & Hfin & ->) | (l & Hlin & ->)]]]];
    cbn [run toggleTheme setIsDarkMode setHoveredField setHoveredLayer
         hoveredField hoveredLayer]; repeat split; auto.
  - right. exists f. auto.
  - right. exists l. auto.
Qed.

Lemma reachable_wellFormed (a : App) (p : Tab * State) :
  reachable a p -> wellFormed a p.
Proof.
  intros Hreach. induction Hreach as [| p q Hreach IH Hstep].
  - unfold wellFormed. cbn [fst snd]. split; [destruct a; cbn; auto | auto].
  - destruct Hstep as [t s h Hin | t t' s Hin].
    + apply run_keeps_wellFormed; assumption.
    + destruct IH as (_ & Hf & Hl). unfold wellFormed. cbn [fst snd] in *. auto.
Qed.

(** X5: every state the user can reach from the initial one, by hovering,
    leaving, clicking the theme button and switching tabs, has an active
    tab that has a trigger, a hovered field that is [null] or the name of
    a field of the table, and a hovered layer that is [null] or the number
    of a layer of the table. *)
Theorem X5_reachable_states_wellFormed :
  forall (a : App) (p : Tab * State), reachable a p -> wellFormed a p.
Proof.
  intros a p Hreach. apply reachable_wellFormed, Hreach.
Qed.

Lemma X5_reachable_states_wellFormed_witness :
  let p := (HeaderDetail, mkState true (Some "Hop Limit") None) in
  reachable Page_IPv6App p /\ wellFormed Page_IPv6App p.
Proof.
  intros p.
  assert (Hreach : reachable Page_IPv6App p).
  { apply (reach_step Page_IPv6App (HeaderDetail, initialState Page_IPv6App)).
    - apply (reach_step Page_IPv6App (Story, initialState Page_IPv6App)).
      + apply reach_init.
      + apply step_select. cbn. auto.
    - apply (step_event Page_IPv6App HeaderDetail (initialState Page_IPv6App)
               (CallSetHoveredField (Some "Hop Limit"))).
      vm_compute. do 11 right. left. reflexivity. }
  split; [exact Hreach |].
  apply (X5_reachable_states_wellFormed Page_IPv6App p Hreach).
Defined.

Lemma wellFormed_views (a : App) (t : Tab) (s : State) :
  wellFormed a (t, s) ->
  let c := config a in
  tabsContent c t s <> Null
  /\ ((hoveredField s = None
       /\ fieldDetails c s = Null
       /\ filter isHighlightedCard (fieldExplanations c s) = [])
      \/ (exists f, In f (fields c)
                    /\ hoveredField s = Some (IPField.name f)
                    /\ fieldDetails c s = detailPanel (fieldDetail f)
                    /\ filter isHighlightedCard (fieldExplanations c s) = [fieldCard s f])).
Proof.
  intros (Ht & Hf & _) c. cbn [fst snd] in *. split.
  - destruct a, t; cbn in Ht; try discriminate;
      repeat (destruct Ht as [Ht | Ht]; [discriminate Ht |]); contradiction.
  - destruct Hf as [Hnone | (f & Hfin & Hsome)].
    + left. split; [exact Hnone |]. split.
      * unfold fieldDetails. rewrite Hnone. reflexivity.
      * rewrite highlighted_cards, Hnone. cbn [JS.strictEqStr].
        induction (fields c) as [| g l IH]; [reflexivity | exact IH].
    + right. exists f. split; [exact Hfin |]. split; [exact Hsome |]. split.
      * unfold fieldDetails, fieldDetailContent. rewrite Hsome.
        cbn [JS.truthyStr JS.strictEqStr].
        destruct (String.eqb (IPField.name f) "") eqn:E.
        { apply String.eqb_eq in E. exfalso.
          apply (fieldNames_nonempty a). rewrite <- E.
          apply in_map, Hfin. }
        cbn [negb]. unfold c. rewrite (find_own_name a f Hfin). reflexivity.
      * rewrite highlighted_cards, Hsome. cbn [JS.strictEqStr].
        unfold c.
        rewrite (filter_unique_key _ _ String.eqb IPField.name String.eqb_eq f
                   (fields (config a)) (fieldNames_NoDup a) Hfin).
        reflexivity.
Qed.

(** X6: in every state the user can reach the active tab has content, and
    either no field is hovered, the detail panel is absent and no card is
    highlighted, or the hovered field is a field of the table, the panel
    shows the details of that field and its card is the one highlighted
    card: the empty panel frame of an unknown name never appears. *)
Theorem X6_reachable_views :
  forall (a : App) (t : Tab) (s : State),
    reachable a (t, s) ->
    let c := config a in
    tabsContent c t s <> Null
    /\ ((hoveredField s = None
         /\ fieldDetails c s = Null
         /\ filter isHighlightedCard (fieldExplanations c s) = [])
        \/ (exists f, In f (fields c)
                      /\ hoveredField s = Some (IPField.name f)
                      /\ fieldDetails c s = detailPanel (fieldDetail f)
                      /\ filter isHighlightedCard (fieldExplanations c s) = [fieldCard s f])).
Proof.
  intros a t s Hreach.
  apply wellFormed_views, reachable_wellFormed, Hreach.
Qed.

Lemma X6_reachable_views_witness :
  let s := mkState false (Some "Flags") None in
  reachable Part001_IPv4App (HeaderDetail, s)
  /\ tabsContent (config Part001_IPv4App) HeaderDetail s <> Null
  /\ shownText (fieldDetails (config Part001_IPv4App) s)
     = [ "3 bits"; "Flags"; "Control fragmentation"
       ; "Controls packet fragmentation: Reserved bit, Don't Fragment (DF), More Fragments (MF)."
       ; "Example:"; " "; "010 = Don't Fragment set" ].
Proof.
  intros s.
  assert (Hreach : reachable Part001_IPv4App (HeaderDetail, s)).
  { apply (reach_step Part001_IPv4App (HeaderDetail, initialState Part001_IPv4App)).
    - apply reach_init.
    - apply (step_event Part001_IPv4App HeaderDetail (initialState Part001_IPv4App)
               (CallSetHoveredField (Some "Flags"))).
      vm_compute. do 11 right. left. reflexivity. }
  split; [exact Hreach |].
  pose proof (X6_reachable_views Part001_IPv4App HeaderDetail s Hreach) as H.
  cbv zeta in H. destruct H as (Hc & _).
  split; [exact Hc | reflexivity].
Defined.

(** ** Theme *)

(** X7: the root element lists the class [dark] exactly when [isDarkMode]
    holds; [toggleTheme] leaves the content of the active tab as it is and
    always changes the rendered page (the root class and the icon of the
    button). *)
Theorem X7_theme_in_the_view :
  forall (a : App) (t : Tab) (s : State),
    let c := config a in
    (In "dark" (classTokens (classOf (render c t s))) <-> isDarkMode s = true)
    /\ tabsContent c t (toggleTheme s) = tabsContent c t s
    /\ render c t (toggleTheme s) <> render c t s
    /\ shownText (render c t (toggleTheme s)) = shownText (render c t s).
Proof.
  intros a t s c. split; [| split; [| split]].
  - unfold render. cbn [classOf propsOf className cls]. unfold rootClass.
    destruct (isDarkMode s); vm_compute; split; intros H.
    + reflexivity.
    + do 3 right. left. reflexivity.
    + repeat (destruct H as [H | H]; [discriminate H |]). contradiction.
    + discriminate H.
  - destruct t; reflexivity.
  - unfold render, rootClass, toggleTheme, setIsDarkMode. cbn [isDarkMode].
    destruct (isDarkMode s); discriminate.
  - assert (Hc : tabsContent c t (toggleTheme s) = tabsContent c t s)
      by (destruct t; reflexivity).
    unfold render, shownText. cbn [descendants flat_map].
    rewrite Hc. unfold themeButton, toggleTheme, setIsDarkMode. cbn [isDarkMode].
    destruct (isDarkMode s); reflexivity.
Qed.

(** ** Hovering changes class names only *)

(** X8: apart from the header tab of the single-panel page, whose panel
    appears and disappears, hovering changes nothing but class names: the
    rendered page keeps its elements, keys, handlers and text whatever the
    two hover cells hold. *)
Theorem X8_hover_changes_classes_only :
  forall (a : App) (t : Tab) (s : State) (v : option string) (w : option Z),
    singlePanel (config a) = false \/ t <> HeaderDetail ->
    skeleton (render (config a) t (setHoveredField v (setHoveredLayer w s)))
    = skeleton (render (config a) t s).
Proof.
  intros a t s v w Hside.
  destruct a, t, s as [[] f h];
    try (destruct Hside as [Hside | Hside];
         [discriminate Hside | exfalso; apply Hside; reflexivity]);
    vm_compute; reflexivity.
Qed.

Lemma X8_hover_changes_classes_only_witness :
  let s := initialState Page_IPv6App in
  (singlePanel (config Page_IPv6App) = false \/ HeaderDetail <> HeaderDetail)
  /\ skeleton (render (config Page_IPv6App) HeaderDetail
                 (setHoveredField (Some "Hop Limit") (setHoveredLayer (Some 3) s)))
     = skeleton (render (config Page_IPv6App) HeaderDetail s).
Proof.
  intros s.
  assert (Hside : singlePanel (config Page_IPv6App) = false \/ HeaderDetail <> HeaderDetail)
    by (left; reflexivity).
  split; [exact Hside |].
  apply (X8_hover_changes_classes_only Page_IPv6App HeaderDetail s
           (Some "Hop Limit") (Some 3) Hside).
Defined.

(** On the header tab of the single-panel page the structure does change. *)
Lemma panel_changes_structure :
  skeleton (render (config Part001_IPv4App) HeaderDetail
              (setHoveredField (Some "Flags") (initialState Part001_IPv4App)))
  <> skeleton (render (config Part001_IPv4App) HeaderDetail
                 (initialState Part001_IPv4App)).
Proof. vm_compute. discriminate. Qed.

(** ** Protocol badges *)

(** X9: a protocol badge has the highlighted styling exactly when its
    protocol is the one the page is about; in the rendered OSI Model tab
    that is one badge, in the row of layer 3, in every state. *)
Theorem X9_own_protocol_badge :
  forall (a : App) (s : State),
    let c := config a in
    (forall p : string,
        isHighlightedProtocol (protocolBadge c p) = String.eqb p (proto c))
    /\ map keyOf (select isHighlightedProtocol (render c OsiModel s))
       = [StrKey (proto c)]
    /\ map (fun row => map keyOf (select isHighlightedProtocol row)) (osiLayerList c s)
       = map (fun n => if Z.eqb n 3 then [StrKey (proto c)] else []) descending.
Proof.
  intros a s c. split; [| split].
  - intros p. unfold protocolBadge, isHighlightedProtocol.
    cbn [tagOf classOf propsOf className outlineBadge].
    destruct (String.eqb p (proto c)); reflexivity.
  - destruct a, s as [[] f h]; vm_compute; reflexivity.
  - destruct a; vm_compute; reflexivity.
Qed.

(** ** The bit ruler of the single-panel page *)

Lemma shownNumbers_bitRulerCell (i : Z) :
  shownNumbers (bitRulerCell i) = if Z.eqb (Z.rem i 8) 0 then [i] else [].
Proof. unfold bitRulerCell. destruct (Z.eqb (Z.rem i 8) 0); reflexivity. Qed.

Lemma shownText_bitRulerCell (i : Z) : shownText (bitRulerCell i) = [].
Proof. unfold bitRulerCell. destruct (Z.eqb (Z.rem i 8) 0); reflexivity. Qed.

(** X10: [Array.from({ length: n }, ...)] with the ruler's cell function
    gives [n] cells keyed 0 to [n - 1]; the numbers shown are the multiples
    of 8 below [n] and no other text is shown.  The ruler of the page has
    as many cells as its grid has columns and shows 0, 8, 16 and 24. *)
Theorem X10_bit_ruler :
  (forall n : nat,
      let r := arrayFrom n bitRulerCell in
      length r = n
      /\ map keyOf r = map (fun i => NumKey (Z.of_nat i)) (seq 0 n)
      /\ (forall k : Z,
             In k (flat_map shownNumbers r)
             <-> 0 <= k < Z.of_nat n /\ k mod 8 = 0)
      /\ flat_map shownText r = [])
  /\ flat_map shownNumbers bitRuler = [0; 8; 16; 24]
  /\ (exists g, In g (grids part001_ipv4_diagram)
                /\ childrenOf g = bitRuler
                /\ gridCols g = Some (Z.of_nat (length bitRuler))).
Proof.
  split; [| split].
  - intros n r. subst r. unfold arrayFrom.
    split; [rewrite length_map, length_seq; reflexivity |].
    split; [rewrite map_map; reflexivity |].
    split.
    + intros k. rewrite in_flat_map. split.
      * intros (cellk & Hcell & Hk).
        apply in_map_iff in Hcell. destruct Hcell as (i & <- & Hi).
        apply in_seq in Hi.
        rewrite shownNumbers_bitRulerCell in Hk.
        destruct (Z.eqb (Z.rem (Z.of_nat i) 8) 0) eqn:E; [| contradiction].
        destruct Hk as [<- | []].
        apply Z.eqb_eq in E. rewrite Z.rem_mod_nonneg in E by lia.
        split; [lia | exact E].
      * intros (Hrange & Hmod).
        exists (bitRulerCell k). split.
        -- apply in_map_iff. exists (Z.to_nat k). split.
           ++ rewrite Z2Nat.id by lia. reflexivity.
           ++ apply in_seq. lia.
        -- rewrite shownNumbers_bitRulerCell, Z.rem_mod_nonneg by lia.
           rewrite Hmod. left. reflexivity.
    + induction (seq 0 n) as [| i l IH]; cbn [map flat_map]; [reflexivity |].
      rewrite shownText_bitRulerCell, IH. reflexivity.
  - reflexivity.
  - eexists. split; [| split].
    + vm_compute. left. reflexivity.
    + reflexivity.
    + reflexivity.
Qed.

(** ** The grid of the single-panel header diagram *)

(** X11: in the header diagram of the single-panel page every grid fills
    its columns: the columns its cells take add up to its [grid-cols-32].
    The cells that hover a field are the fields of the table, in table
    order, and each takes as many columns as the table gives it bits; the
    variable-width Options cell takes a full row. *)
Theorem X11_panel_diagram_grid :
  Forall (fun g => gridCols g = Some 32 /\ columnsUsed g = 32)
    (grids part001_ipv4_diagram)
  /\ length (grids part001_ipv4_diagram) = 7%nat
  /\ map (fun d => (cellField d, colSpan d)) (fieldCells part001_ipv4_diagram)
     = map (fun f => (Some (IPField.name f),
                      match bitWidth (IPField.bits f) with
                      | Some w => Some w
                      | None => Some 32
                      end))
         (fields (config Part001_IPv4App))
  /\ map (fun f => bitWidth (IPField.bits f)) (fields (config Part001_IPv4App))
     = [ Some 4; Some 4; Some 8; Some 16; Some 16; Some 3; Some 13
       ; Some 8; Some 8; Some 16; Some 32; Some 32; None ].
Proof.
  split; [| split; [| split]].
  - assert (H : forallb (fun g => match gridCols g with
                                  | Some k => Z.eqb k 32
                                  | None => false
                                  end && Z.eqb (columnsUsed g) 32)
                  (grids part001_ipv4_diagram) = true)
      by (vm_compute; reflexivity).
    apply Forall_forall. intros g Hg.
    rewrite forallb_forall in H. specialize (H g Hg).
    apply andb_prop in H. destruct H as [H1 H2].
    apply Z.eqb_eq in H2. split; [| exact H2].
    destruct (gridCols g) as [k |]; [| discriminate H1].
    apply Z.eqb_eq in H1. rewrite H1. reflexivity.
  - vm_compute. reflexivity.
  - vm_compute. reflexivity.
  - vm_compute. reflexivity.
Qed.

(** ** React keys *)

Lemma fieldDetails_cases (c : Config) (s : State) :
  fieldDetails c s = Null
  \/ fieldDetails c s = Text ""
  \/ fieldDetails c s = detailPanel Null
  \/ exists f, fieldDetails c s = detailPanel (fieldDetail f).
Proof.
  unfold fieldDetails, fieldDetailContent, detailPanel.
  destruct (hoveredField s) as [x |]; cbn [JS.truthyStr]; [| auto].
  destruct (String.eqb x "") eqn:E; cbn [negb].
  - apply String.eqb_eq in E. subst x. auto.
  - destruct (JS.find _ (fields c)) as [f |]; [| auto].
    do 3 right. exists f. reflexivity.
Qed.

Lemma no_duplicate_keys_header_panel (c : Config) (s : State) :
  singlePanel c = true ->
  select hasDuplicateKeys (render c HeaderDetail s) = [].
Proof.
  intros Hpanel.
  unfold render, themeButton, tabsContent, headerTab, tabCard. rewrite Hpanel.
  destruct (fieldDetails_cases c s) as [-> | [-> | [-> | (f & ->)]]];
    destruct (isDarkMode s); try reflexivity;
    unfold detailPanel, fieldDetail, exampleBox;
    destruct (IPField.example f) as [e |];
    try destruct (String.eqb e ""); reflexivity.
Qed.

(** X12: in every rendered page and in every header diagram, no two
    children of one element carry the same React [key]: the field names,
    the layer numbers, the protocols of each layer and the indices of the
    bit ruler are pairwise different where they are used as keys. *)
Theorem X12_sibling_keys_distinct :
  forall (a : App) (t : Tab) (s : State),
    select hasDuplicateKeys (render (config a) t s) = []
    /\ select hasDuplicateKeys (headerDiagram a) = [].
Proof.
  intros a t s. split; [| destruct a; vm_compute; reflexivity].
  destruct t.
  - destruct a, s as [[] f h]; reflexivity.
  - destruct (singlePanel (config a)) eqn:Hstyle.
    + apply no_duplicate_keys_header_panel, Hstyle.
    + destruct a, s as [[] f h]; try discriminate Hstyle; vm_compute; reflexivity.
  - destruct a, s as [[] f h]; vm_compute; reflexivity.
  - destruct a, s as [[] f h]; vm_compute; reflexivity.
Qed.

(** ** What a card and the panel show *)

Lemma fieldDetails_of_table_field (a : App) (f : IPField.t) (s : State) :
  In f (fields (config a)) ->
  hoveredField s = Some (IPField.name f) ->
  fieldDetails (config a) s = detailPanel (fieldDetail f).
Proof.
  intros Hf Hs. unfold fieldDetails, fieldDetailContent. rewrite Hs.
  cbn [JS.truthyStr JS.strictEqStr].
  destruct (String.eqb (IPField.name f) "") eqn:E.
  { apply String.eqb_eq in E. exfalso.
    apply (fieldNames_nonempty a). rewrite <- E. apply in_map, Hf. }
  cbn [negb]. rewrite (find_own_name a f Hf). reflexivity.
Qed.

(** X13: every field of every table has an example, and its card shows,
    in this order, its width, name, description, purpose, the word
    "Example:" and the example; the detail panel shows the same texts once
    [setHoveredField] was called with the field's name. *)
Theorem X13_card_and_panel_text :
  forall (a : App) (f : IPField.t) (s : State),
    In f (fields (config a)) ->
    exists e : string,
      IPField.example f = Some e
      /\ shownText (fieldCard s f)
         = [ IPField.bits f; IPField.name f; IPField.description f
           ; IPField.purpose f; "Example:"; " "; e ]
      /\ shownText (fieldDetails (config a) (setHoveredField (Some (IPField.name f)) s))
         = [ IPField.bits f; IPField.name f; IPField.description f
           ; IPField.purpose f; "Example:"; " "; e ].
Proof.
  intros a f s Hf.
  rewrite (fieldDetails_of_table_field a f
             (setHoveredField (Some (IPField.name f)) s) Hf eq_refl).
  destruct a; cbn in Hf;
    repeat (destruct Hf as [<- | Hf];
            [eexists; split; [reflexivity | split; reflexivity] |]);
    contradiction.
Qed.

Lemma X13_card_and_panel_text_witness :
  let f := IPField.mk "Time to Live" "8 bits" "Maximum hops allowed"
             "Prevents infinite routing loops by limiting packet lifetime. Decremented at each hop."
             (Some "64 hops (common default)") in
  In f (fields (config Part001_IPv4App))
  /\ exists e : string,
       IPField.example f = Some e
       /\ shownText (fieldCard (initialState Part001_IPv4App) f)
          = [ IPField.bits f; IPField.name f; IPField.description f
            ; IPField.purpose f; "Example:"; " "; e ]
       /\ shownText (fieldDetails (config Part001_IPv4App)
                       (setHoveredField (Some (IPField.name f))
                          (initialState Part001_IPv4App)))
          = [ IPField.bits f; IPField.name f; IPField.description f
            ; IPField.purpose f; "Example:"; " "; e ].
Proof.
  intros f.
  assert (Hf : In f (fields (config Part001_IPv4App))).
  { cbn. do 7 right. left. reflexivity. }
  split; [exact Hf |].
  apply (X13_card_and_panel_text Part001_IPv4App f (initialState Part001_IPv4App) Hf).
Defined.

(** ** Which tab reads which cell *)

(** X14: each hover cell is read by one tab only: the header tab renders
    the same whatever [hoveredLayer] holds, the OSI Model tab the same
    whatever [hoveredField] holds, and the story and integration tabs the
    same whatever both hold; on the other hand each cell does change the
    tab that reads it. *)
Theorem X14_hover_cells_are_tab_local :
  forall (a : App) (s : State) (v : option string) (w : option Z),
    let c := config a in
    render c HeaderDetail (setHoveredLayer w s) = render c HeaderDetail s
    /\ render c OsiModel (setHoveredField v s) = render c OsiModel s
    /\ render c Story (setHoveredField v (setHoveredLayer w s)) = render c Story s
    /\ render c Integration (setHoveredField v (setHoveredLayer w s))
       = render c Integration s
    /\ render c OsiModel (setHoveredLayer (Some 3) s)
       <> render c OsiModel (setHoveredLayer None s)
    /\ render c HeaderDetail (setHoveredField (Some "Version") s)
       <> render c HeaderDetail (setHoveredField None s).
Proof.
  intros a s v w c. subst c.
  repeat split; try reflexivity.
  - destruct a; vm_compute; discriminate.
  - destruct a; vm_compute; discriminate.
Qed.
